(** * Verification of the daggerverse modules [glow] and [signoff]

    The two Dagger modules of the repository are thin orchestration
    layers: every method appends commands to a lazily evaluated
    container and then asks the Dagger engine for the standard output,
    the standard error or the exit code of the last command.

    The embedding keeps that shape.  A container is the ordered list of
    the pipeline steps applied to the Wolfi base image; the [Signoff]
    receiver is mutated in place by [WithExec], which is modelled by a
    state monad over the receiver; the engine, the markdown library and
    [strconv.Quote] are parameters of a section.  Go strings are byte
    strings, so they are modelled by [string].

    The repository holds two revisions of each module.  The embedding
    follows the later one: [signoff] with the configurable check name,
    [Out], [WhoIs], [Install] and [Uninstall], and [glow] with [ReadMe];
    [DisplayMarkdown] is the same in both revisions of [glow]. *)

From Stdlib Require Import String Ascii List ZArith Lia Bool DecimalString.
Import ListNotations.

Local Open Scope list_scope.
Local Open Scope string_scope.

(** ** Go preliminaries *)

Module Go.

(** The Go [error] interface, reduced to what the modules observe: the
    message of [Error()] and the error reached by [Unwrap()] for an
    error built with the [%w] verb. *)
Inductive error : Type :=
| Errorf (msg : string)
| Errorw (msg : string) (cause : error).

(** [Errorf msg] is [fmt.Errorf] with a format that holds no [%w];
    [Errorw msg e] is [fmt.Errorf] with one [%w] bound to [e], where
    [msg] is the fully formatted text (the verb replaced by
    [Error e]). *)

Definition Error (e : error) : string :=
  match e with Errorf msg => msg | Errorw msg _ => msg end.

Definition Unwrap (e : error) : option error :=
  match e with Errorf _ => None | Errorw _ cause => Some cause end.

(** The double quote character, escaped with a backslash in the Go
    sources. *)
Definition dquote : string := String "034"%char EmptyString.

(** The line feed, written [\n] in the Go sources. *)
Definition lf : ascii := "010"%char.

Definition LF : string := String lf EmptyString.

(** The [%d] verb applied to an [int]. *)
Definition itoa (n : Z) : string := NilZero.string_of_int (Z.to_int n).

(** *** [strings.TrimSpace]

    [TrimSpace] removes the leading and then the trailing runes for
    which [unicode.IsSpace] holds.  A rune is decoded from the UTF-8
    bytes of the string, and a white space rune is recognised exactly
    when the string starts (or ends) with the UTF-8 encoding of that
    rune, so the set of encodings is what the model needs. *)

Definition bytes := list ascii.

Definition asciiSpace : list bytes :=
  [ ["009"%char]; ["010"%char]; ["011"%char]; ["012"%char]; ["013"%char];
    ["032"%char] ].

(** U+0085, U+00A0, U+1680, U+2000..U+200A, U+2028, U+2029, U+202F,
    U+205F and U+3000. *)
Definition unicodeSpace : list bytes :=
  [ ["194"%char; "133"%char]; ["194"%char; "160"%char];
    ["225"%char; "154"%char; "128"%char];
    ["226"%char; "128"%char; "128"%char]; ["226"%char; "128"%char; "129"%char];
    ["226"%char; "128"%char; "130"%char]; ["226"%char; "128"%char; "131"%char];
    ["226"%char; "128"%char; "132"%char]; ["226"%char; "128"%char; "133"%char];
    ["226"%char; "128"%char; "134"%char]; ["226"%char; "128"%char; "135"%char];
    ["226"%char; "128"%char; "136"%char]; ["226"%char; "128"%char; "137"%char];
    ["226"%char; "128"%char; "138"%char];
    ["226"%char; "128"%char; "168"%char]; ["226"%char; "128"%char; "169"%char];
    ["226"%char; "128"%char; "175"%char];
    ["226"%char; "129"%char; "159"%char];
    ["227"%char; "128"%char; "128"%char] ].

Definition spaceRunes : list bytes := (asciiSpace ++ unicodeSpace)%list.

Fixpoint hasPrefix (p s : bytes) : bool :=
  match p, s with
  | [], _ => true
  | _ :: _, [] => false
  | a :: p', b :: s' => Ascii.eqb a b && hasPrefix p' s'
  end.

(** Width in bytes of the rune at the front of [s] when it is one of
    [runes], and [0] otherwise. *)
Definition runeWidth (runes : list bytes) (s : bytes) : nat :=
  match find (fun r => hasPrefix r s) runes with
  | Some r => length r
  | None => 0
  end.

(** The loop of [TrimLeftFunc]: drop runes of [runes] from the front.
    One unit of fuel is spent per dropped rune. *)
Fixpoint dropRunes (runes : list bytes) (fuel : nat) (s : bytes) : bytes :=
  match fuel with
  | O => s
  | S fuel' =>
      match runeWidth runes s with
      | O => s
      | S w => dropRunes runes fuel' (skipn (S w) s)
      end
  end.

Definition trimLeft (s : bytes) : bytes :=
  dropRunes spaceRunes (length s) s.

(** [TrimRightFunc] walks from the end: it is the front loop on the
    reversed string with the reversed encodings. *)
Definition trimRight (s : bytes) : bytes :=
  rev (dropRunes (map (@rev ascii) spaceRunes) (length s) (rev s)).

Definition TrimSpace (s : string) : string :=
  string_of_list_ascii (trimRight (trimLeft (list_ascii_of_string s))).

(** [s] starts with no white space rune. *)
Definition noLeadingSpace (s : string) : Prop :=
  runeWidth spaceRunes (list_ascii_of_string s) = 0.

(** [s] ends with no white space rune. *)
Definition noTrailingSpace (s : string) : Prop :=
  runeWidth (map (@rev ascii) spaceRunes) (rev (list_ascii_of_string s)) = 0.

(** [sub] occurs in [s]. *)
Definition Contains (s sub : string) : Prop :=
  exists pre post, s = pre ++ sub ++ post.

End Go.

(** ** The Dagger SDK, as far as the modules use it *)

Module Dagger.

(** Handles on engine objects. *)
Inductive Directory : Type := DirectoryID (id : string).
Inductive Secret : Type := SecretID (id : string).
Inductive File : Type := FileID (id : string).

(** [dagger.ReturnType], the [Expect] option of [WithExec]. *)
Inductive ReturnType : Type :=
| ReturnTypeSuccess
| ReturnTypeFailure
| ReturnTypeAny.

(** One call of the container builder API. *)
Inductive Step : Type :=
| StepEnvVariable (name value : string)
| StepSecretVariable (name : string) (secret : Secret)
| StepWorkdir (path : string)
| StepMountedDirectory (path : string) (source : Directory)
| StepExec (args : list string) (expect : ReturnType)
| StepTerminal.

(** A container is a lazy pipeline: the packages of the Wolfi base image
    and the steps applied to it so far, oldest first.  Every builder
    call returns a new container with one more step. *)
Record Container : Type := MkContainer {
  Packages : list string;
  Steps : list Step
}.

Definition WolfiContainer (packages : list string) : Container :=
  {| Packages := packages; Steps := [] |}.

Definition step (c : Container) (s : Step) : Container :=
  {| Packages := Packages c; Steps := (Steps c ++ [s])%list |}.

Definition WithEnvVariable (c : Container) (name value : string) : Container :=
  step c (StepEnvVariable name value).

Definition WithSecretVariable (c : Container) (name : string) (s : Secret)
  : Container :=
  step c (StepSecretVariable name s).

Definition WithWorkdir (c : Container) (path : string) : Container :=
  step c (StepWorkdir path).

Definition WithMountedDirectory (c : Container) (path : string) (d : Directory)
  : Container :=
  step c (StepMountedDirectory path d).

Definition WithExec (c : Container) (args : list string) (expect : ReturnType)
  : Container :=
  step c (StepExec args expect).

Definition Terminal (c : Container) : Container :=
  step c StepTerminal.

(** The three queries that force the evaluation of a container.  Each
    one answers with a Go pair: a value and an error that may be nil. *)
Record Engine : Type := MkEngine {
  Stdout : Container -> string * option Go.error;
  Stderr : Container -> string * option Go.error;
  ExitCode : Container -> Z * option Go.error;
  Contents : File -> string * option Go.error
}.

Inductive Query : Type :=
| QStdout (c : Container)
| QStderr (c : Container)
| QExitCode (c : Container).

Definition queried (q : Query) : Container :=
  match q with QStdout c | QStderr c | QExitCode c => c end.

(** The commands of a container, oldest first. *)
Definition execs (c : Container) : list (list string) :=
  flat_map (fun s => match s with StepExec args _ => [args] | _ => [] end)
           (Steps c).

End Dagger.

(** ** Module [glow] *)

Module Glow.

(** [type Glow struct{}] *)
Inductive Glow : Type := MkGlow.

Section Methods.

(** [glamour.Render in stylePath] of the markdown library. *)
Variable Render : string -> string -> string * option Go.error.

Variable engine : Dagger.Engine.

(** Render a markdown input string to be displayed on a terminal. *)
Definition DisplayMarkdown (m : Glow) (str : string)
  : string * option Go.error :=
  Render str "dark".

(** Print readme file in the terminal. *)
Definition ReadMe (m : Glow) (file : Dagger.File)
  : string * option Go.error :=
  let '(c, err) := Dagger.Contents engine file in
  match err with
  | Some e =>
      (EmptyString,
       Some (Go.Errorw ("could not read README.md: " ++ Go.Error e) e))
  | None => DisplayMarkdown m c
  end.

End Methods.

End Glow.

(** ** Module [signoff] *)

Module Signoff.

Import Dagger.

Record Signoff : Type := MkSignoff {
  Sources : Directory;
  Token : Secret;
  Container : Dagger.Container;
  CheckName : string
}.

(** What a method can change: the receiver, which [WithExec] mutates in
    place, the queries sent to the engine and the lines written with
    [fmt.Println] and [fmt.Printf]. *)
Record World : Type := MkWorld {
  this : Signoff;
  asked : list Query;
  printed : list string
}.

(** State passing over [World]. *)
Definition M (A : Type) : Type := World -> A * World.

Definition ret {A : Type} (a : A) : M A := fun w => (a, w).

Definition bind {A B : Type} (c : M A) (k : A -> M B) : M B :=
  fun w => let '(a, w') := c w in k a w'.

Declare Scope go_scope.
Delimit Scope go_scope with go.

Notation "x <- c ;; k" := (bind c (fun x => k))
  (at level 61, c at next level, right associativity) : go_scope.
Notation "' pat <- c ;; k" :=
  (bind c (fun x => match x with pat => k end))
  (at level 61, pat pattern, c at next level, right associativity) : go_scope.
Notation "c ;; k" := (bind c (fun _ => k))
  (at level 61, right associativity) : go_scope.

Local Open Scope go_scope.

Definition getContainer : M Dagger.Container :=
  fun w => (Container (this w), w).

Definition setContainer (c : Dagger.Container) : M unit :=
  fun w =>
    (tt, {| this := {| Sources := Sources (this w);
                       Token := Token (this w);
                       Container := c;
                       CheckName := CheckName (this w) |};
            asked := asked w;
            printed := printed w |}).

Definition getCheckName : M string :=
  fun w => (CheckName (this w), w).

Definition Print (s : string) : M unit :=
  fun w => (tt, {| this := this w;
                   asked := asked w;
                   printed := (printed w ++ [s])%list |}).

Definition isNil (err : option Go.error) : bool :=
  match err with None => true | Some _ => false end.

Section Methods.

Variable engine : Engine.

(** [strconv.Quote], the [%q] verb on a string. *)
Variable Quote : string -> string.

Definition ask {A : Type} (q : Query) (answer : A) : M A :=
  fun w => (answer, {| this := this w;
                       asked := (asked w ++ [q])%list;
                       printed := printed w |}).

Definition base : Dagger.Container :=
  WithExec
    (WithEnvVariable
       (WithEnvVariable (WolfiContainer ["gh"; "git"])
                        "GH_PROMPT_DISABLED" "true")
       "GH_NO_UPDATE_NOTIFIER" "true")
    ["gh"; "auth"; "setup-git"; "--force"; "--hostname"; "github.com"]
    ReturnTypeSuccess.

(** [now] is [time.Now().Format(time.RFC3339Nano)]. *)
Definition container (now : string) (sources : Directory) (token : Secret)
  : Dagger.Container :=
  WithMountedDirectory
    (WithWorkdir
       (WithSecretVariable
          (WithEnvVariable base "CACHE_BUSTER" now)
          "GITHUB_TOKEN" token)
       "/work/repo")
    "/work/repo" sources.

Definition New (now : string) (sources : Directory) (token : Secret)
           (checkName : string) : Signoff :=
  {| Sources := sources;
     Token := token;
     Container := container now sources token;
     CheckName := checkName |}.

(** Exec any command. *)
Definition WithExec (args : list string) : M unit :=
  c <- getContainer ;;
  setContainer (Dagger.WithExec c args ReturnTypeAny).

(** Exec any git command. *)
Definition WithGitExec (args : list string) : M unit :=
  WithExec ("git" :: args).

(** Exec any gh command. *)
Definition WithGhExec (args : list string) : M unit :=
  WithExec ("gh" :: args).

Definition Stdout : M (string * option Go.error) :=
  c <- getContainer ;;
  ask (QStdout c) (Dagger.Stdout engine c).

Definition ExitCode : M (Z * option Go.error) :=
  c <- getContainer ;;
  ask (QExitCode c) (Dagger.ExitCode engine c).

Definition Stderr : M (string * option Go.error) :=
  c <- getContainer ;;
  ask (QStderr c) (Dagger.Stderr engine c).

Definition Out : M (string * option Go.error) :=
  '(stdOut, err) <- Stdout ;;
  match err with
  | Some e => ret (EmptyString, Some e)
  | None =>
      '(stdErr, err) <- Stderr ;;
      match err with
      | Some e => ret (EmptyString, Some e)
      | None =>
          let out := stdOut ++ Go.LF ++ stdErr in
          '(exitCode, err) <- ExitCode ;;
          match err with
          | Some e => ret (EmptyString, Some e)
          | None =>
              if (exitCode =? 0)%Z then ret (out, None)
              else ret (out, Some (Go.Errorf ("exit code " ++ Go.itoa exitCode)))
          end
      end
  end.

(** Check if the local directory is clean. *)
Definition IsClean : M (option Go.error) :=
  '(out, err) <- (WithGitExec ["status"; "--porcelain"] ;; Stdout) ;;
  if negb (isNil err) || negb (out =? EmptyString)%string then
    ret (Some (Go.Errorf "found uncommitted changes in the repo"))
  else
    '(exitCode, err) <-
      (WithGitExec ["rev-parse"; "--abbrev-ref"; "@{push}"] ;; ExitCode) ;;
    if negb (isNil err) || negb (exitCode =? 0)%Z then
      ret (Some (Go.Errorf "no tracking branch found"))
    else
      '(out, err) <- (WithGitExec ["log"; "@{push}.."] ;; Stdout) ;;
      if negb (isNil err) || negb (out =? EmptyString)%string then
        ret (Some (Go.Errorf "found unpushed commits in the repo"))
      else ret None.

(** Retrieve the commit SHA of the most recent commit. *)
Definition Sha : M (string * option Go.error) :=
  '(out, err) <- (WithGitExec ["rev-parse"; "HEAD"] ;; Stdout) ;;
  match err with
  | Some e => ret (EmptyString, Some e)
  | None => ret (Go.TrimSpace out, None)
  end.

(** Get the username of the user who is currently authenticated. *)
Definition WhoIs : M (string * option Go.error) :=
  '(out, err) <- (WithGhExec ["api"; "user"; "--jq"; ".login"] ;; Out) ;;
  match err with
  | Some e => ret (EmptyString, Some e)
  | None => ret (Go.TrimSpace out, None)
  end.

(** Get the default branch configured on the repository using gh API. *)
Definition DefaultBranch : M (string * option Go.error) :=
  WithGhExec ["api"; "repos/:owner/:repo"; "--jq"; ".default_branch"] ;;
  Stdout.

(** The arguments of the status request of [Create]. *)
Definition statusPost (sha checkName user : string) : list string :=
  [ "api";
    "--method"; "POST";
    "repos/:owner/:repo/statuses/" ++ sha;
    "-f"; "state=success";
    "-f"; "context=" ++ checkName;
    "-f"; "description=" ++ Go.dquote ++ user ++ " signed off" ++ Go.dquote ].

(** Sign off the current commit. *)
Definition Create : M (option Go.error) :=
  err <- IsClean ;;
  match err with
  | Some e => ret (Some e)
  | None =>
      '(sha, err) <- Sha ;;
      match err with
      | Some e => ret (Some e)
      | None =>
          '(user, err) <- WhoIs ;;
          match err with
          | Some e => ret (Some e)
          | None =>
              checkName <- getCheckName ;;
              '(out, err) <-
                (WithGhExec (statusPost sha checkName user) ;; Out) ;;
              match err with
              | Some e =>
                  ret (Some (Go.Errorw (out ++ ": " ++ Go.Error e) e))
              | None =>
                  Print ("✓ Signed off on " ++ sha ++ Go.LF) ;;
                  ret None
              end
          end
      end
  end.

(** The arguments of the branch protection request of [Install]. *)
Definition protectionPut (branch checkName : string) : list string :=
  [ "api";
    "/repos/:owner/:repo/branches/" ++ branch ++ "/protection";
    "--method"; "PUT";
    "-H"; "Accept: application/vnd.github+json";
    "-H"; "X-GitHub-Api-Version: 2022-11-28";
    "--field"; "required_status_checks[strict]=false";
    "--field"; "required_status_checks[contexts][]=" ++ checkName;
    "--field"; "enforce_admins=null";
    "--field"; "required_pull_request_reviews=null";
    "--field"; "restrictions=null" ].

(** The arguments of the branch protection request of [Uninstall]. *)
Definition protectionDelete (branch : string) : list string :=
  [ "api";
    "/repos/:owner/:repo/branches/" ++ branch ++ "/protection";
    "--method"; "DELETE" ].

(** Install signoff requirement on the defined branch or on the default
    one. *)
Definition Install (branch : string) : M (option Go.error) :=
  let protect (branch : string) : M (option Go.error) :=
    if (branch =? EmptyString)%string then
      ret (Some (Go.Errorf "could not install without a branch name"))
    else
      checkName <- getCheckName ;;
      '(out, err) <- (WithGhExec (protectionPut branch checkName) ;; Out) ;;
      match err with
      | Some e =>
          ret (Some (Go.Errorw
                       ("could not install signoff check " ++ Quote checkName
                        ++ " to branch " ++ Quote branch ++ ": "
                        ++ Go.Error e ++ Go.LF ++ out) e))
      | None =>
          Print ("✓ GitHub " ++ checkName
                 ++ " branch now requires signoff on check " ++ Quote branch) ;;
          ret None
      end in
  if (branch =? EmptyString)%string then
    '(branch, err) <- DefaultBranch ;;
    match err with
    | Some e =>
        ret (Some (Go.Errorw
                     ("could not get the default branch: " ++ Go.Error e) e))
    | None => protect branch
    end
  else protect branch.

(** Uninstall signoff requirement on the defined branch or on the
    default one. *)
Definition Uninstall (branch : string) : M (option Go.error) :=
  let unprotect (branch : string) : M (option Go.error) :=
    if (branch =? EmptyString)%string then
      ret (Some (Go.Errorf "could not uninstall without a branch name"))
    else
      '(out, err) <- (WithGhExec (protectionDelete branch) ;; Out) ;;
      match err with
      | Some e =>
          ret (Some (Go.Errorw
                       ("could not uninstall branch protection for branch "
                        ++ Quote branch ++ ": " ++ Go.Error e ++ Go.LF ++ out)
                       e))
      | None =>
          checkName <- getCheckName ;;
          Print ("✓ GitHub " ++ checkName
                 ++ " branch no longer requires signoff") ;;
          ret None
      end in
  if (branch =? EmptyString)%string then
    '(branch, err) <- DefaultBranch ;;
    match err with
    | Some e =>
        ret (Some (Go.Errorw
                     ("could not get the default branch: " ++ Go.Error e) e))
    | None => unprotect branch
    end
  else unprotect branch.

(** The jq program of [PullRequest]. *)
Definition pullsFilter (defaultBranch : string) : string :=
  ".[] | select(.state == " ++ Go.dquote ++ "open" ++ Go.dquote
  ++ ") | select(.base.ref == " ++ Go.dquote ++ defaultBranch ++ Go.dquote
  ++ ") | .html_url".

(** Get the pull request url of the current branch (to the default
    branch) if any. *)
Definition PullRequest : M (string * option Go.error) :=
  '(defaultBranch, err) <- DefaultBranch ;;
  match err with
  | Some e => ret (EmptyString, Some e)
  | None =>
      '(out, err) <-
        (WithGhExec ["api"; "repos/:owner/:repo/pulls";
                     "--jq"; pullsFilter defaultBranch] ;; Stdout) ;;
      match err with
      | Some e => ret (EmptyString, Some e)
      | None => ret (Go.TrimSpace out, None)
      end
  end.

(** Open a pull request for the current branch. *)
Definition OpenPR (verbose : bool) : M (string * option Go.error) :=
  let fill := if verbose then "--fill-verbose" else "--fill" in
  WithGhExec ["pr"; "create"; fill] ;; Out.

(** Open an interactive terminal into the container with git and gh
    tools. *)
Definition Terminal : M Dagger.Container :=
  c <- getContainer ;;
  ret (Dagger.Terminal c).

End Methods.

(** *** Observations on worlds *)

(** [c] after one more command run the way [WithExec] runs it. *)
Definition run (c : Dagger.Container) (args : list string)
  : Dagger.Container :=
  Dagger.WithExec c args ReturnTypeAny.

(** [w] once the receiver holds the container [c]. *)
Definition holding (w : World) (c : Dagger.Container) : World :=
  {| this := {| Sources := Sources (this w);
                Token := Token (this w);
                Container := c;
                CheckName := CheckName (this w) |};
     asked := asked w;
     printed := printed w |}.

(** [w] once the queries [qs] were sent to the engine. *)
Definition asking (w : World) (qs : list Query) : World :=
  {| this := this w;
     asked := (asked w ++ qs)%list;
     printed := printed w |}.

(** [w] once the lines [lines] were printed. *)
Definition saying (w : World) (lines : list string) : World :=
  {| this := this w;
     asked := asked w;
     printed := (printed w ++ lines)%list |}.

(** The three commands of the cleanliness check, each on top of the
    previous one. *)
Definition gitStatus (c : Dagger.Container) : Dagger.Container :=
  run c ["git"; "status"; "--porcelain"].

Definition gitPushRef (c : Dagger.Container) : Dagger.Container :=
  run (gitStatus c) ["git"; "rev-parse"; "--abbrev-ref"; "@{push}"].

Definition gitLog (c : Dagger.Container) : Dagger.Container :=
  run (gitPushRef c) ["git"; "log"; "@{push}.."].

(** (a) no uncommitted changes: the status query answers with an empty
    output. *)
Definition noChanges (engine : Engine) (c : Dagger.Container) : bool :=
  match Dagger.Stdout engine (gitStatus c) with
  | (out, None) => (out =? EmptyString)%string
  | (_, Some _) => false
  end.

(** (b) the branch has a tracking branch: the push reference
    resolves. *)
Definition tracking (engine : Engine) (c : Dagger.Container) : bool :=
  match Dagger.ExitCode engine (gitPushRef c) with
  | (code, None) => (code =? 0)%Z
  | (_, Some _) => false
  end.

(** (c) no unpushed commits: the commit range is empty. *)
Definition pushed (engine : Engine) (c : Dagger.Container) : bool :=
  match Dagger.Stdout engine (gitLog c) with
  | (out, None) => (out =? EmptyString)%string
  | (_, Some _) => false
  end.

(** The three errors of the cleanliness check. *)
Definition errDirty : Go.error :=
  Go.Errorf "found uncommitted changes in the repo".

Definition errUntracked : Go.error :=
  Go.Errorf "no tracking branch found".

Definition errAhead : Go.error :=
  Go.Errorf "found unpushed commits in the repo".

(** A command that posts a commit status through [gh api]. *)
Definition isStatusPost (args : list string) : bool :=
  match args with
  | a0 :: a1 :: a2 :: a3 :: a4 :: _ =>
      (a0 =? "gh")%string && (a1 =? "api")%string
      && (a2 =? "--method")%string && (a3 =? "POST")%string
      && prefix "repos/:owner/:repo/statuses/" a4
  | _ => false
  end.

Definition statusPosts (c : Dagger.Container) : list (list string) :=
  filter isStatusPost (execs c).

(** A command that changes the protection of a branch through
    [gh api]. *)
Definition isProtectionRequest (args : list string) : bool :=
  match args with
  | a0 :: a1 :: a2 :: _ =>
      (a0 =? "gh")%string && (a1 =? "api")%string
      && prefix "/repos/:owner/:repo/branches/" a2
  | _ => false
  end.

Definition protectionRequests (c : Dagger.Container) : list (list string) :=
  filter isProtectionRequest (execs c).

(** The values given with [-f] on a [gh api] command line. *)
Fixpoint fields (args : list string) : list string :=
  match args with
  | flag :: rest =>
      match rest with
      | value :: rest' =>
          if (flag =? "-f")%string then value :: fields rest' else fields rest
      | [] => []
      end
  | [] => []
  end.

(** The command that asks for the default branch. *)
Definition ghDefaultBranch (c : Dagger.Container) : Dagger.Container :=
  run c ["gh"; "api"; "repos/:owner/:repo"; "--jq"; ".default_branch"].

(** The command that asks for the authenticated user. *)
Definition ghUser (c : Dagger.Container) : Dagger.Container :=
  run c ["gh"; "api"; "user"; "--jq"; ".login"].

(** The command that asks for the commit of HEAD. *)
Definition gitHead (c : Dagger.Container) : Dagger.Container :=
  run c ["git"; "rev-parse"; "HEAD"].

(** The reading under which the three accessors would all return their
    raw standard output trimmed: whenever the accessor returns without
    error, its result is the trimmed standard output of its command and
    carries no white space at either end. *)
Definition trimmedStdout (engine : Engine)
           (accessor : M (string * option Go.error))
           (command : Dagger.Container -> Dagger.Container)
           (w : World) : Prop :=
  forall result,
    fst (accessor w) = (result, None) ->
    result = Go.TrimSpace (fst (Dagger.Stdout engine
                                  (command (Container (this w)))))
    /\ Go.noLeadingSpace result /\ Go.noTrailingSpace result.

Definition allTrimmed (engine : Engine) (w : World) : Prop :=
  trimmedStdout engine (DefaultBranch engine) ghDefaultBranch w
  /\ trimmedStdout engine (Sha engine) gitHead w
  /\ trimmedStdout engine (WhoIs engine) ghUser w.

End Signoff.

(** ** The jq program of [PullRequest]

    [gh api --jq] runs a jq program on the JSON answer of the hosting
    API.  The fragment of jq that [PullRequest] uses is small enough to
    be given its syntax and its semantics. *)

Module Jq.

#[local] Set Warnings "-register-all".

Inductive json : Type :=
| JNull
| JString (s : string)
| JArray (items : list json)
| JObject (fields : list (string * json)).

Inductive jqfilter : Type :=
| Iterate
| Path (fields : list string)
| SelectEq (path : list string) (literal : string)
| Pipe (f g : jqfilter).

Fixpoint showPath (p : list string) : string :=
  match p with
  | [] => EmptyString
  | f :: p' => "." ++ f ++ showPath p'
  end.

(** Concrete syntax. *)
Fixpoint show (f : jqfilter) : string :=
  match f with
  | Iterate => ".[]"
  | Path p => showPath p
  | SelectEq p lit =>
      "select(" ++ showPath p ++ " == " ++ Go.dquote ++ lit ++ Go.dquote ++ ")"
  | Pipe f g => show f ++ " | " ++ show g
  end.

Fixpoint lookup (name : string) (fields : list (string * json)) : json :=
  match fields with
  | [] => JNull
  | (k, v) :: rest => if (k =? name)%string then v else lookup name rest
  end.

(** [.a.b] on a value; [None] is a jq error. *)
Fixpoint getpath (p : list string) (v : json) : option json :=
  match p with
  | [] => Some v
  | f :: p' =>
      match v with
      | JObject fields => getpath p' (lookup f fields)
      | JNull => getpath p' JNull
      | _ => None
      end
  end.

Fixpoint collect (rs : list (option (list json))) : option (list json) :=
  match rs with
  | [] => Some []
  | None :: _ => None
  | Some vs :: rest =>
      match collect rest with
      | None => None
      | Some ws => Some (vs ++ ws)%list
      end
  end.

(** The stream of outputs of a filter on one input. *)
Fixpoint eval (f : jqfilter) (v : json) : option (list json) :=
  match f with
  | Iterate =>
      match v with
      | JArray items => Some items
      | JObject fields => Some (map snd fields)
      | _ => None
      end
  | Path p =>
      match getpath p v with
      | Some x => Some [x]
      | None => None
      end
  | SelectEq p lit =>
      match getpath p v with
      | Some (JString s) => Some (if (s =? lit)%string then [v] else [])
      | Some _ => Some []
      | None => None
      end
  | Pipe f g =>
      match eval f v with
      | None => None
      | Some vs => collect (map (eval g) vs)
      end
  end.

(** The program that the text of [Signoff.pullsFilter] stands for when
    the default branch can be put between double quotes as it is (no
    double quote, no backslash, ASCII only); [JqSyntax.parse] reads it
    back from the text. *)
Definition pullsProgram (defaultBranch : string) : jqfilter :=
  Pipe Iterate
       (Pipe (SelectEq ["state"] "open")
             (Pipe (SelectEq ["base"; "ref"] defaultBranch)
                   (Path ["html_url"]))).

(** A pull request as the hosting API lists it, reduced to the fields
    that matter here. *)
Record PullRequest : Type := MkPullRequest {
  state : string;
  base_ref : string;
  head_ref : string;
  html_url : string
}.

Definition toJSON (pr : PullRequest) : json :=
  JObject [ ("html_url", JString (html_url pr));
            ("state", JString (state pr));
            ("head", JObject [("ref", JString (head_ref pr))]);
            ("base", JObject [("ref", JString (base_ref pr))]) ].

(** What the claim of the documentation would select: open, against
    the default branch, from the current branch. *)
Definition ofCurrentBranch (defaultBranch currentBranch : string)
           (pr : PullRequest) : bool :=
  (state pr =? "open")%string && (base_ref pr =? defaultBranch)%string
  && (head_ref pr =? currentBranch)%string.

(** What the program selects. *)
Definition openAgainst (defaultBranch : string) (pr : PullRequest) : bool :=
  (state pr =? "open")%string && (base_ref pr =? defaultBranch)%string.

End Jq.

(** ** Reading the jq program

    The text that [PullRequest] hands to [gh] is read by a lexer and a
    parser for the part of jq it is written in: [.[]], paths of
    fields, [select] on the equality of a path and a string literal,
    and pipes.  Inside a string literal a backslash starts an escape
    and a byte above 127 is decoded as UTF-8; neither is part of what
    is modelled, so the lexer refuses them, and a double quote ends the
    literal. *)

Module JqSyntax.

Import Jq.

Inductive token : Type :=
| TDot
| TLBrack
| TRBrack
| TPipe
| TLParen
| TRParen
| TEqEq
| TIdent (name : string)
| TStr (literal : string).

Definition between (lo n hi : nat) : bool := (lo <=? n)%nat && (n <=? hi)%nat.

Definition isIdentChar (c : ascii) : bool :=
  let n := nat_of_ascii c in
  between 97 n 122 || between 65 n 90 || between 48 n 57 || (n =? 95)%nat.

(** A byte that stands for itself in a string literal. *)
Definition plainChar (c : ascii) : bool :=
  let n := nat_of_ascii c in
  between 1 n 127 && negb (n =? 34)%nat && negb (n =? 92)%nat.

(** A string that can be put between double quotes as it is. *)
Fixpoint plain (s : string) : bool :=
  match s with
  | EmptyString => true
  | String c s' => plainChar c && plain s'
  end.

Definition punct (c : ascii) : option token :=
  let n := nat_of_ascii c in
  if (n =? 46)%nat then Some TDot
  else if (n =? 91)%nat then Some TLBrack
  else if (n =? 93)%nat then Some TRBrack
  else if (n =? 124)%nat then Some TPipe
  else if (n =? 40)%nat then Some TLParen
  else if (n =? 41)%nat then Some TRParen
  else None.

Inductive mode : Type :=
| Start
| InIdent (acc : string)
| InStr (acc : string)
| Eq1.

(** What one byte does between two tokens: the tokens it completes and
    the mode it leaves. *)
Definition startChar (c : ascii) : option (list token * mode) :=
  if (nat_of_ascii c =? 32)%nat then Some ([], Start)
  else if (nat_of_ascii c =? 34)%nat then Some ([], InStr EmptyString)
  else if (nat_of_ascii c =? 61)%nat then Some ([], Eq1)
  else if isIdentChar c then Some ([], InIdent (String c EmptyString))
  else match punct c with
       | Some t => Some ([t], Start)
       | None => None
       end.

(** What one byte does in a mode; [None] is a text outside the
    fragment. *)
Definition next (m : mode) (c : ascii) : option (list token * mode) :=
  match m with
  | Start => startChar c
  | InIdent acc =>
      if isIdentChar c then Some ([], InIdent (acc ++ String c EmptyString))
      else match startChar c with
           | Some (out, m') => Some (TIdent acc :: out, m')
           | None => None
           end
  | InStr acc =>
      if (nat_of_ascii c =? 34)%nat then Some ([TStr acc], Start)
      else if plainChar c then Some ([], InStr (acc ++ String c EmptyString))
      else None
  | Eq1 =>
      if (nat_of_ascii c =? 61)%nat then Some ([TEqEq], Start) else None
  end.

(** One byte at a time. *)
Fixpoint lex (m : mode) (s : string) : option (list token) :=
  match s with
  | EmptyString =>
      match m with
      | Start => Some []
      | InIdent acc => Some [TIdent acc]
      | InStr _ => None
      | Eq1 => None
      end
  | String c s' =>
      match next m c with
      | Some (out, m') => option_map (app out) (lex m' s')
      | None => None
      end
  end.

(** The tokens completed by a piece of text and the mode it leaves. *)
Fixpoint scan (m : mode) (s : string) : option (list token * mode) :=
  match s with
  | EmptyString => Some ([], m)
  | String c s' =>
      match next m c with
      | Some (out, m') =>
          match scan m' s' with
          | Some (out', m'') => Some ((out ++ out')%list, m'')
          | None => None
          end
      | None => None
      end
  end.

(** [.a.b] and what follows it. *)
Fixpoint parsePath (ts : list token) : list string * list token :=
  match ts with
  | TDot :: TIdent name :: rest =>
      let '(p, r) := parsePath rest in (name :: p, r)
  | _ => ([], ts)
  end.

Definition parseTerm (ts : list token) : option (jqfilter * list token) :=
  match ts with
  | TDot :: TLBrack :: TRBrack :: rest => Some (Iterate, rest)
  | TIdent f :: TLParen :: rest =>
      if (f =? "select")%string then
        match parsePath rest with
        | (name :: p, TEqEq :: TStr lit :: TRParen :: rest') =>
            Some (SelectEq (name :: p) lit, rest')
        | _ => None
        end
      else None
  | TDot :: TIdent _ :: _ =>
      let '(p, r) := parsePath ts in Some (Path p, r)
  | _ => None
  end.

(** Terms separated by pipes; the pipe associates to the right. *)
Fixpoint parsePipe (fuel : nat) (ts : list token) : option jqfilter :=
  match fuel with
  | O => None
  | S fuel' =>
      match parseTerm ts with
      | Some (t, []) => Some t
      | Some (t, TPipe :: rest) => option_map (Pipe t) (parsePipe fuel' rest)
      | _ => None
      end
  end.

Definition parse (s : string) : option jqfilter :=
  match lex Start s with
  | Some ts => parsePipe (length ts) ts
  | None => None
  end.

End JqSyntax.

(** ** A scripted engine

    An engine that answers from a table indexed by the last command of
    the container; the concrete runs below use it. *)

Module Fake.

Import Dagger.

Record Answer : Type := MkAnswer {
  stdout : string;
  stderr : string;
  exitCode : Z
}.

Fixpoint eqArgs (a b : list string) : bool :=
  match a, b with
  | [], [] => true
  | x :: a', y :: b' => (x =? y)%string && eqArgs a' b'
  | _, _ => false
  end.

Definition Script : Type := list (list string * Answer).

Fixpoint answer (script : Script) (args : list string) : Answer :=
  match script with
  | [] => {| stdout := EmptyString; stderr := EmptyString; exitCode := 0 |}
  | (a, r) :: rest => if eqArgs a args then r else answer rest args
  end.

Definition lastExec (c : Container) : list string :=
  last (execs c) [].

Definition engine (script : Script) : Engine :=
  {| Stdout := fun c => (stdout (answer script (lastExec c)), None);
     Stderr := fun c => (stderr (answer script (lastExec c)), None);
     ExitCode := fun c => (exitCode (answer script (lastExec c)), None);
     Contents := fun _ => (EmptyString, None) |}.

(** An engine whose every query fails. *)
Definition broken (e : Go.error) : Engine :=
  {| Stdout := fun _ => (EmptyString, Some e);
     Stderr := fun _ => (EmptyString, Some e);
     ExitCode := fun _ => (0%Z, Some e);
     Contents := fun _ => (EmptyString, Some e) |}.

Definition ok (out : string) : Answer :=
  {| stdout := out; stderr := EmptyString; exitCode := 0 |}.

(** A clean, tracked and pushed clone at commit [abc123], used by
    [alice]. *)
Definition cleanRepo : Script :=
  [ (["git"; "status"; "--porcelain"], ok EmptyString);
    (["git"; "rev-parse"; "--abbrev-ref"; "@{push}"],
     ok ("origin/topic" ++ Go.LF));
    (["git"; "log"; "@{push}.."], ok EmptyString);
    (["git"; "rev-parse"; "HEAD"], ok ("abc123" ++ Go.LF));
    (["gh"; "api"; "user"; "--jq"; ".login"], ok ("alice" ++ Go.LF));
    (["gh"; "api"; "repos/:owner/:repo"; "--jq"; ".default_branch"],
     ok ("main" ++ Go.LF)) ].

(** The same clone with a modified file. *)
Definition dirtyRepo : Script :=
  (["git"; "status"; "--porcelain"], ok (" M main.go" ++ Go.LF)) :: cleanRepo.

(** The same clone on a branch that has no upstream. *)
Definition untrackedRepo : Script :=
  (["git"; "rev-parse"; "--abbrev-ref"; "@{push}"],
   {| stdout := EmptyString;
      stderr := "fatal: no upstream configured for branch 'topic'";
      exitCode := 128 |}) :: cleanRepo.

(** The same clone with a commit that was not pushed. *)
Definition aheadRepo : Script :=
  (["git"; "log"; "@{push}.."], ok ("commit 9fceb02" ++ Go.LF)) :: cleanRepo.

(** The same clone when [gh] writes a notice on its standard error. *)
Definition noisyGh : Script :=
  (["gh"; "api"; "user"; "--jq"; ".login"],
   {| stdout := "alice" ++ Go.LF;
      stderr := "warning: rate limit is low";
      exitCode := 0 |}) :: cleanRepo.

(** The same clone when the hosting API refuses the status. *)
Definition refusedStatus : Script :=
  ("gh" :: Signoff.statusPost "abc123" "signoff" "alice",
   {| stdout := "{}";
      stderr := "gh: Not Found (HTTP 404)";
      exitCode := 1 |}) :: cleanRepo.

(** A repository whose default branch is not known. *)
Definition noDefaultBranch : Script :=
  [ (["gh"; "api"; "repos/:owner/:repo"; "--jq"; ".default_branch"],
     ok EmptyString) ].

(** [strconv.Quote] on strings that need no escape. *)
Definition quote (s : string) : string := Go.dquote ++ s ++ Go.dquote.

(** A renderer that marks the text in the dark style and leaves it as
    it is in the others. *)
Definition boldRender (str style : string) : string * option Go.error :=
  if (style =? "dark")%string then ("[1m" ++ str ++ "[0m", None)
  else (str, None).

(** An engine that reads one file and fails on the others. *)
Definition files (name contents : string) : Engine :=
  {| Stdout := fun _ => (EmptyString, None);
     Stderr := fun _ => (EmptyString, None);
     ExitCode := fun _ => (0%Z, None);
     Contents := fun f =>
       match f with
       | FileID id =>
           if (id =? name)%string then (contents, None)
           else (EmptyString, Some (Go.Errorf "no such file"))
       end |}.

(** Two open pull requests against [main]; the current branch is
    [topic]. *)
Definition pulls : list Jq.PullRequest :=
  [ {| Jq.state := "open"; Jq.base_ref := "main"; Jq.head_ref := "topic";
       Jq.html_url := "https://github.com/o/r/pull/1" |};
    {| Jq.state := "open"; Jq.base_ref := "main"; Jq.head_ref := "other";
       Jq.html_url := "https://github.com/o/r/pull/2" |} ].

Definition signoff0 : Signoff.Signoff :=
  Signoff.New "2024-05-01T10:00:00Z" (DirectoryID "src") (SecretID "token")
              "signoff".

Definition world0 : Signoff.World :=
  {| Signoff.this := signoff0; Signoff.asked := []; Signoff.printed := [] |}.

End Fake.

(** ** What every operation keeps

    The receiver is only ever changed by [WithExec], which appends one
    command.  [Grows P w w'] says that [w'] comes from [w] by such
    steps: the sources, the token, the check name and the base image
    are the same, the container has some more commands, all run with
    [ReturnTypeAny] and all accepted by [P], every container that was
    evaluated lies between the two containers, and lines were only
    added to the output. *)

Module Frame.

Import Dagger Signoff.

(** The command starts with [git] or [gh]. *)
Definition isTool (args : list string) : bool :=
  match args with
  | tool :: _ => (tool =? "git")%string || (tool =? "gh")%string
  | [] => false
  end.

Definition anyCommand (args : list string) : bool := true.

(** [c'] is [c] with more steps. *)
Definition extends (c c' : Dagger.Container) : Prop :=
  Packages c' = Packages c
  /\ exists more, Steps c' = (Steps c ++ more)%list.

Definition commands (cmds : list (list string)) : list Step :=
  map (fun args => StepExec args ReturnTypeAny) cmds.

Definition Grows (P : list string -> bool) (w w' : World) : Prop :=
  Sources (this w') = Sources (this w)
  /\ Token (this w') = Token (this w)
  /\ CheckName (this w') = CheckName (this w)
  /\ Packages (Container (this w')) = Packages (Container (this w))
  /\ (exists cmds,
        Steps (Container (this w'))
        = (Steps (Container (this w)) ++ commands cmds)%list
        /\ Forall (fun args => P args = true) cmds)
  /\ (exists qs,
        asked w' = (asked w ++ qs)%list
        /\ Forall (fun q => extends (Container (this w)) (queried q)
                            /\ extends (queried q) (Container (this w'))) qs)
  /\ (exists lines, printed w' = (printed w ++ lines)%list).

(** An operation that makes the world grow, whatever the world it is
    run in. *)
Definition Keeps {A : Type} (P : list string -> bool) (m : M A) : Prop :=
  forall w, Grows P w (snd (m w)).

(** The world of a receiver that has run nothing yet. *)
Definition fresh (s : Signoff) : World :=
  {| this := s; asked := []; printed := [] |}.

(** The steps that [New] puts in front of every command. *)
Definition prepared (now : string) (sources : Directory) (token : Secret)
           (c : Dagger.Container) : Prop :=
  Packages c = ["gh"; "git"]
  /\ exists more,
       Steps c
       = ([ StepEnvVariable "GH_PROMPT_DISABLED" "true";
            StepEnvVariable "GH_NO_UPDATE_NOTIFIER" "true";
            StepExec ["gh"; "auth"; "setup-git"; "--force"; "--hostname";
                      "github.com"] ReturnTypeSuccess;
            StepEnvVariable "CACHE_BUSTER" now;
            StepSecretVariable "GITHUB_TOKEN" token;
            StepWorkdir "/work/repo";
            StepMountedDirectory "/work/repo" sources ] ++ more)%list.

(** The query is a query of the standard output. *)
Definition isStdoutQuery (q : Query) : bool :=
  match q with QStdout _ => true | _ => false end.

End Frame.

(** ** Module [signoff], earlier revision

    The earlier revision has no check name, no [WhoIs] and no [Out]:
    [Create] posts a fixed context and a fixed description, [Sha]
    returns the standard output as it is, and [WithExec] runs the
    commands with the default expectation of the SDK, which is
    success. *)

Module Signoff0.

Import Dagger.

Record Signoff : Type := MkSignoff {
  Sources : Directory;
  Token : Secret;
  Container : Dagger.Container
}.

Record World : Type := MkWorld {
  this : Signoff;
  asked : list Query;
  printed : list string
}.

Definition M (A : Type) : Type := World -> A * World.

Definition ret {A : Type} (a : A) : M A := fun w => (a, w).

Definition bind {A B : Type} (c : M A) (k : A -> M B) : M B :=
  fun w => let '(a, w') := c w in k a w'.

Declare Scope go0_scope.
Delimit Scope go0_scope with go0.

Notation "x <- c ;; k" := (bind c (fun x => k))
  (at level 61, c at next level, right associativity) : go0_scope.
Notation "' pat <- c ;; k" :=
  (bind c (fun x => match x with pat => k end))
  (at level 61, pat pattern, c at next level, right associativity) : go0_scope.
Notation "c ;; k" := (bind c (fun _ => k))
  (at level 61, right associativity) : go0_scope.

Local Open Scope go0_scope.

Definition getContainer : M Dagger.Container :=
  fun w => (Container (this w), w).

Definition setContainer (c : Dagger.Container) : M unit :=
  fun w =>
    (tt, {| this := {| Sources := Sources (this w);
                       Token := Token (this w);
                       Container := c |};
            asked := asked w;
            printed := printed w |}).

Definition Print (s : string) : M unit :=
  fun w => (tt, {| this := this w;
                   asked := asked w;
                   printed := (printed w ++ [s])%list |}).

Definition ask {A : Type} (q : Query) (answer : A) : M A :=
  fun w => (answer, {| this := this w;
                       asked := (asked w ++ [q])%list;
                       printed := printed w |}).

Section Methods.

Variable engine : Engine.

Definition base : Dagger.Container :=
  Dagger.WithExec
    (WithEnvVariable
       (WithEnvVariable (WolfiContainer ["gh"; "git"])
                        "GH_PROMPT_DISABLED" "true")
       "GH_NO_UPDATE_NOTIFIER" "true")
    ["gh"; "auth"; "setup-git"; "--force"; "--hostname"; "github.com"]
    ReturnTypeSuccess.

(** [now] is [time.Now().Format(time.RFC3339Nano)]. *)
Definition container (now : string) (sources : Directory) (token : Secret)
  : Dagger.Container :=
  WithMountedDirectory
    (WithWorkdir
       (WithSecretVariable
          (WithEnvVariable base "CACHE_BUSTER" now)
          "GITHUB_TOKEN" token)
       "/work/repo")
    "/work/repo" sources.

Definition New (now : string) (sources : Directory) (token : Secret)
  : Signoff :=
  {| Sources := sources;
     Token := token;
     Container := container now sources token |}.

Definition WithExec (args : list string) : M unit :=
  c <- getContainer ;;
  setContainer (Dagger.WithExec c args ReturnTypeSuccess).

Definition WithGitExec (args : list string) : M unit :=
  WithExec ("git" :: args).

Definition WithGhExec (args : list string) : M unit :=
  WithExec ("gh" :: args).

Definition Terminal : M Dagger.Container :=
  c <- getContainer ;;
  ret (Dagger.Terminal c).

Definition Stdout : M (string * option Go.error) :=
  c <- getContainer ;;
  ask (QStdout c) (Dagger.Stdout engine c).

Definition ExitCode : M (Z * option Go.error) :=
  c <- getContainer ;;
  ask (QExitCode c) (Dagger.ExitCode engine c).

Definition Stderr : M (string * option Go.error) :=
  c <- getContainer ;;
  ask (QStderr c) (Dagger.Stderr engine c).

Definition IsClean : M (option Go.error) :=
  '(out, err) <- (WithGitExec ["status"; "--porcelain"] ;; Stdout) ;;
  if negb (Signoff.isNil err) || negb (out =? EmptyString)%string then
    ret (Some (Go.Errorf "found uncommitted changes in the repo"))
  else
    '(exitCode, err) <-
      (WithGitExec ["rev-parse"; "--abbrev-ref"; "@{push}"] ;; ExitCode) ;;
    if negb (Signoff.isNil err) || negb (exitCode =? 0)%Z then
      ret (Some (Go.Errorf "no tracking branch found"))
    else
      '(out, err) <- (WithGitExec ["log"; "@{push}.."] ;; Stdout) ;;
      if negb (Signoff.isNil err) || negb (out =? EmptyString)%string then
        ret (Some (Go.Errorf "found unpushed commits in the repo"))
      else ret None.

Definition Sha : M (string * option Go.error) :=
  WithGitExec ["rev-parse"; "HEAD"] ;; Stdout.

(** The arguments of the status request of [Create]. *)
Definition statusPost (sha : string) : list string :=
  [ "api";
    "--method"; "POST";
    "repos/:owner/:repo/statuses/" ++ sha;
    "-f"; "state=success";
    "-f"; "context=signoff";
    "-f"; "description=" ++ Go.dquote ++ "${user} signed off" ++ Go.dquote ].

Definition Create : M (option Go.error) :=
  err <- IsClean ;;
  match err with
  | Some e => ret (Some e)
  | None =>
      '(sha, err) <- Sha ;;
      match err with
      | Some e => ret (Some e)
      | None =>
          '(_, err) <- (WithGhExec (statusPost sha) ;; ExitCode) ;;
          match err with
          | Some e => ret (Some e)
          | None =>
              Print ("✓ Signed off on " ++ sha ++ Go.LF) ;;
              ret None
          end
      end
  end.

End Methods.

(** [c] after one more command run the way [WithExec] runs it. *)
Definition run (c : Dagger.Container) (args : list string)
  : Dagger.Container :=
  Dagger.WithExec c args ReturnTypeSuccess.

(** The container after the three checks and the resolution of HEAD. *)
Definition checked (c : Dagger.Container) : Dagger.Container :=
  run (run (run (run c ["git"; "status"; "--porcelain"])
                ["git"; "rev-parse"; "--abbrev-ref"; "@{push}"])
           ["git"; "log"; "@{push}.."])
      ["git"; "rev-parse"; "HEAD"].

(** The commands of [c] that start with [gh]. *)
Definition ghCommands (c : Dagger.Container) : list (list string) :=
  filter (fun args => match args with
                      | tool :: _ => (tool =? "gh")%string
                      | [] => false
                      end) (execs c).

End Signoff0.

(** ** More scripted engines *)

Module Scenes.

Import Dagger.

(** [engine] with another exit code and another standard error on
    every command. *)
Definition exiting (engine : Engine) (code : Z) (err : string) : Engine :=
  {| Stdout := Dagger.Stdout engine;
     Stderr := fun _ => (err, None);
     ExitCode := fun _ => (code, None);
     Contents := Dagger.Contents engine |}.

(** The clean clone with a token that the hosting API refuses. *)
Definition badToken : Fake.Script :=
  (["gh"; "api"; "user"; "--jq"; ".login"],
   {| Fake.stdout := EmptyString;
      Fake.stderr := "gh: Bad credentials (HTTP 401)";
      Fake.exitCode := 1 |}) :: Fake.cleanRepo.

(** The clean clone when the hosting API accepts the protection
    request on [main]. *)
Definition protectedMain : Fake.Script :=
  ("gh" :: Signoff.protectionPut "main" "signoff", Fake.ok "{}")
  :: Fake.cleanRepo.

(** The clean clone when the hosting API knows no protection on
    [main]. *)
Definition unprotectedMain : Fake.Script :=
  ("gh" :: Signoff.protectionDelete "main",
   {| Fake.stdout := "{}";
      Fake.stderr := "gh: Branch not protected (HTTP 404)";
      Fake.exitCode := 1 |}) :: Fake.cleanRepo.

(** The clean clone when a pull request of the branch exists already. *)
Definition existingPR : Fake.Script :=
  (["gh"; "pr"; "create"; "--fill"],
   {| Fake.stdout := EmptyString;
      Fake.stderr := "a pull request for branch topic already exists";
      Fake.exitCode := 1 |}) :: Fake.cleanRepo.

(** A renderer that fails on every input. *)
Definition brokenRender (str style : string) : string * option Go.error :=
  (EmptyString, Some (Go.Errorf "glamour: cannot render")).

(** The reading under which [ReadMe] would fail on a read failure and
    on nothing else. *)
Definition errorsOnlyOnReadFailure
           (Render : string -> string -> string * option Go.error)
           (engine : Engine) (m : Glow.Glow) (file : File) : Prop :=
  snd (Glow.ReadMe Render engine m file) <> None
  <-> snd (Dagger.Contents engine file) <> None.

(** A receiver of the earlier revision that has run nothing yet. *)
Definition world00 : Signoff0.World :=
  {| Signoff0.this :=
       Signoff0.New "2024-05-01T10:00:00Z" (DirectoryID "src")
                    (SecretID "token");
     Signoff0.asked := [];
     Signoff0.printed := [] |}.

End Scenes.


(** * Properties *)

(** ** [strings.TrimSpace] *)

Module GoFacts.

Import Go.

Lemma hasPrefix_firstn (p s : bytes) (n : nat) :
  hasPrefix p (firstn n s) = true -> hasPrefix p s = true.
Proof.
  revert s n. induction p as [|a p IH]; intros s n H; [reflexivity|].
  destruct s as [|b s]; [now rewrite firstn_nil in H|].
  destruct n as [|n]; [discriminate H|].
  simpl in *. apply andb_true_iff in H as [Hab Hp].
  rewrite Hab. simpl. now apply IH with n.
Qed.

Lemma runeWidth_nil (runes : list bytes) :
  Forall (fun r => r <> []) runes -> runeWidth runes [] = 0.
Proof.
  intros Hne. unfold runeWidth.
  destruct (find _ runes) as [r|] eqn:E; [|reflexivity].
  apply find_some in E as [Hin Hp].
  rewrite Forall_forall in Hne. specialize (Hne r Hin).
  destruct r; [contradiction | discriminate Hp].
Qed.

(** With enough fuel the front loop stops on a string that starts with
    none of the runes. *)
Lemma dropRunes_front (runes : list bytes) :
  Forall (fun r => r <> []) runes ->
  forall fuel s, length s <= fuel ->
  runeWidth runes (dropRunes runes fuel s) = 0.
Proof.
  intros Hne. induction fuel as [|fuel IH]; intros s Hlen; cbn [dropRunes].
  - destruct s; [now apply runeWidth_nil | simpl in Hlen; lia].
  - destruct (runeWidth runes s) as [|w] eqn:E; [exact E|].
    apply IH. rewrite length_skipn. lia.
Qed.

Lemma dropRunes_skipn (runes : list bytes) (fuel : nat) (s : bytes) :
  exists n, dropRunes runes fuel s = skipn n s.
Proof.
  revert s. induction fuel as [|fuel IH]; intros s; cbn [dropRunes].
  - now exists 0.
  - destruct (runeWidth runes s) as [|w]; [now exists 0|].
    destruct (IH (skipn (S w) s)) as [n Hn].
    exists (S w + n). now rewrite Hn, skipn_skipn, Nat.add_comm.
Qed.

Lemma trimRight_firstn (s : bytes) : exists n, trimRight s = firstn n s.
Proof.
  unfold trimRight.
  destruct (dropRunes_skipn (map (@rev ascii) spaceRunes) (length s) (rev s))
    as [n Hn].
  exists (length s - n). now rewrite Hn, skipn_rev, rev_involutive.
Qed.

Lemma runeWidth_firstn (runes : list bytes) (s : bytes) (n : nat) :
  Forall (fun r => r <> []) runes ->
  runeWidth runes s = 0 -> runeWidth runes (firstn n s) = 0.
Proof.
  intros Hne H. unfold runeWidth in *.
  destruct (find (fun r => hasPrefix r (firstn n s)) runes) as [r|] eqn:E;
    [|reflexivity].
  apply find_some in E as [Hin Hp]. apply hasPrefix_firstn in Hp.
  destruct (find (fun r => hasPrefix r s) runes) as [r'|] eqn:E'.
  - apply find_some in E' as [Hin' _].
    rewrite Forall_forall in Hne. specialize (Hne r' Hin').
    destruct r'; [contradiction | discriminate H].
  - apply find_none with (x := r) in E'; [congruence | exact Hin].
Qed.

Lemma spaceRunes_nonempty : Forall (fun r : bytes => r <> []) spaceRunes.
Proof. repeat constructor; discriminate. Qed.

Lemma spaceRunes_rev_nonempty :
  Forall (fun r : bytes => r <> []) (map (@rev ascii) spaceRunes).
Proof. repeat constructor; discriminate. Qed.

Lemma TrimSpace_noLeadingSpace (s : string) : noLeadingSpace (TrimSpace s).
Proof.
  unfold noLeadingSpace, TrimSpace.
  rewrite list_ascii_of_string_of_list_ascii.
  destruct (trimRight_firstn (trimLeft (list_ascii_of_string s))) as [n ->].
  apply runeWidth_firstn; [exact spaceRunes_nonempty|].
  apply dropRunes_front; [exact spaceRunes_nonempty | lia].
Qed.

Lemma TrimSpace_noTrailingSpace (s : string) : noTrailingSpace (TrimSpace s).
Proof.
  unfold noTrailingSpace, TrimSpace, trimRight.
  rewrite list_ascii_of_string_of_list_ascii, rev_involutive.
  apply dropRunes_front; [exact spaceRunes_rev_nonempty|].
  rewrite length_rev. lia.
Qed.

(** *** A final line feed

    The commands end their output with a line feed; it does not change
    the trimmed string. *)

Lemma hasPrefix_length (p s : bytes) :
  hasPrefix p s = true -> length p <= length s.
Proof.
  revert s. induction p as [|a p IH]; intros [|b s] H; simpl in *;
    try lia; try discriminate.
  apply andb_true_iff in H as [_ H]. apply IH in H. lia.
Qed.

Lemma runeWidth_length (runes : list bytes) (s : bytes) :
  runeWidth runes s <= length s.
Proof.
  unfold runeWidth.
  destruct (find _ runes) as [r|] eqn:E; [|lia].
  apply find_some in E as [_ H]. now apply hasPrefix_length.
Qed.

Lemma hasPrefix_snoc_all (p s : bytes) (z : ascii) :
  ~ In z p -> hasPrefix p (s ++ [z])%list = hasPrefix p s.
Proof.
  revert s. induction p as [|c p IH]; intros s Hz; [reflexivity|].
  destruct s as [|d s]; cbn.
  - destruct (Ascii.eqb_spec c z) as [->|_]; [|reflexivity].
    exfalso. apply Hz. now left.
  - rewrite IH; [reflexivity|]. intros H. apply Hz. now right.
Qed.

Lemma hasPrefix_snoc (p : bytes) (a : ascii) (s : bytes) (z : ascii) :
  ~ In z (tl p) ->
  hasPrefix p ((a :: s) ++ [z])%list = hasPrefix p (a :: s).
Proof.
  intros Hz. destruct p as [|c p]; [reflexivity|].
  cbn. now rewrite hasPrefix_snoc_all.
Qed.

Lemma find_ext_Forall {A : Type} (f g : A -> bool) (l : list A) :
  Forall (fun x => f x = g x) l -> find f l = find g l.
Proof.
  induction 1 as [|x l Hx _ IH]; [reflexivity|].
  cbn. now rewrite Hx, IH.
Qed.

(** No white space rune holds a line feed after its first byte. *)
Lemma spaceRunes_tail_lf : Forall (fun r : bytes => ~ In lf (tl r)) spaceRunes.
Proof.
  unfold lf.
  repeat (constructor; [cbn; intuition discriminate|]). constructor.
Qed.

(** A line feed after a string that is not empty changes nothing to
    its first rune. *)
Lemma runeWidth_lf (a : ascii) (s : bytes) :
  runeWidth spaceRunes ((a :: s) ++ [lf])%list = runeWidth spaceRunes (a :: s).
Proof.
  unfold runeWidth.
  rewrite (find_ext_Forall (fun r => hasPrefix r ((a :: s) ++ [lf])%list)
                            (fun r => hasPrefix r (a :: s))); [reflexivity|].
  eapply Forall_impl; [|exact spaceRunes_tail_lf].
  intros r Hr. now apply hasPrefix_snoc.
Qed.

Lemma dropRunes_lf (fuel : nat) (s : bytes) :
  length s <= fuel ->
  dropRunes spaceRunes (S fuel) (s ++ [lf])%list
  = match dropRunes spaceRunes fuel s with
    | [] => []
    | t => (t ++ [lf])%list
    end.
Proof.
  revert s. induction fuel as [|fuel IH]; intros s Hlen.
  - destruct s; [reflexivity | simpl in Hlen; lia].
  - destruct s as [|a s]; [reflexivity|].
    cbn [dropRunes]. rewrite runeWidth_lf.
    pose proof (runeWidth_length spaceRunes (a :: s)) as Hw.
    destruct (runeWidth spaceRunes (a :: s)) as [|w] eqn:E; [reflexivity|].
    rewrite skipn_app.
    replace (S w - length (a :: s)) with 0 by lia.
    cbn [skipn]. apply IH. rewrite length_skipn. simpl in *. lia.
Qed.

Lemma trimLeft_lf (s : bytes) :
  trimLeft (s ++ [lf])%list
  = match trimLeft s with [] => [] | t => (t ++ [lf])%list end.
Proof.
  unfold trimLeft. rewrite length_app, Nat.add_1_r.
  now apply dropRunes_lf.
Qed.

Lemma trimRight_lf (s : bytes) : trimRight (s ++ [lf])%list = trimRight s.
Proof.
  unfold trimRight. rewrite length_app, Nat.add_1_r, rev_app_distr.
  reflexivity.
Qed.

Lemma list_ascii_of_string_app (a b : string) :
  list_ascii_of_string (a ++ b)
  = (list_ascii_of_string a ++ list_ascii_of_string b)%list.
Proof. induction a as [|x a IH]; cbn; [reflexivity | now rewrite IH]. Qed.

Lemma TrimSpace_LF (s : string) : TrimSpace (s ++ LF) = TrimSpace s.
Proof.
  unfold TrimSpace. rewrite list_ascii_of_string_app.
  change (list_ascii_of_string LF) with [lf]. rewrite trimLeft_lf.
  destruct (trimLeft (list_ascii_of_string s)) as [|a t]; [reflexivity|].
  now rewrite trimRight_lf.
Qed.

Lemma append_assoc (a b c : string) : (a ++ b) ++ c = a ++ b ++ c.
Proof. induction a as [|x a IH]; cbn; [reflexivity | now rewrite IH]. Qed.

Lemma noLeadingSpace_empty : noLeadingSpace EmptyString.
Proof. reflexivity. Qed.

Lemma noTrailingSpace_empty : noTrailingSpace EmptyString.
Proof. reflexivity. Qed.

End GoFacts.

(** ** Module [glow] *)

Module GlowFacts.

Import Glow.

(** X14.  [ReadMe] returns an error when the read fails, when the
    rendering of the contents fails, and in no other case. *)
Lemma ReadMe_error_iff (Render : string -> string -> string * option Go.error)
      (engine : Dagger.Engine) (m : Glow) (file : Dagger.File) :
  snd (ReadMe Render engine m file) <> None <->
  snd (Dagger.Contents engine file) <> None
  \/ (snd (Dagger.Contents engine file) = None
      /\ snd (DisplayMarkdown Render m (fst (Dagger.Contents engine file)))
         <> None).
Proof.
  unfold ReadMe.
  destruct (Dagger.Contents engine file) as [c [e|]]; cbn [fst snd].
  - split; [intros _; left|]; discriminate.
  - split; [intros H; now right|].
    intros [H|[_ H]]; [now contradiction H | exact H].
Qed.

(** C7, as the code has it.  When the read fails, [ReadMe] returns the
    empty string and an error that wraps the read failure, with the
    message prefixed by the context.  When the read succeeds, [ReadMe]
    returns what [DisplayMarkdown] returns on the contents, value and
    error alike.  So [ReadMe] returns an error exactly when the read
    fails or, the read having succeeded, the rendering of the contents
    fails. *)
Theorem ReadMe_wraps_read_failure
        (Render : string -> string -> string * option Go.error)
        (engine : Dagger.Engine) (m : Glow) (file : Dagger.File) :
  match Dagger.Contents engine file with
  | (_, Some e) =>
      exists err,
        ReadMe Render engine m file = (EmptyString, Some err)
        /\ Go.Unwrap err = Some e
        /\ Go.Error err = "could not read README.md: " ++ Go.Error e
  | (c, None) =>
      ReadMe Render engine m file = DisplayMarkdown Render m c
  end
  /\ (snd (ReadMe Render engine m file) <> None <->
      snd (Dagger.Contents engine file) <> None
      \/ (snd (Dagger.Contents engine file) = None
          /\ snd (DisplayMarkdown Render m (fst (Dagger.Contents engine file)))
             <> None)).
Proof.
  unfold ReadMe.
  destruct (Dagger.Contents engine file) as [c [e|]]; cbn [fst snd].
  - split.
    + eexists. repeat split.
    + split; [intros _; left|]; discriminate.
  - split; [reflexivity|].
    split; [intros H; now right|].
    intros [H|[_ H]]; [now contradiction H | exact H].
Qed.

(** The file is read and the rendering fails: [ReadMe] returns an error
    although the read did not fail. *)
Lemma ReadMe_error_without_read_failure :
  ~ Scenes.errorsOnlyOnReadFailure
      Scenes.brokenRender (Fake.files "README.md" "# Title") MkGlow
      (Dagger.FileID "README.md").
Proof.
  intros [H _]. apply H; [discriminate | reflexivity].
Qed.

(** A file that is there is rendered; a file that is not gives the
    wrapped error. *)
Lemma ReadMe_wraps_read_failure_witness :
  let engine := Fake.files "README.md" "# Title" in
  ReadMe Fake.boldRender engine MkGlow (Dagger.FileID "README.md")
  = ("[1m# Title[0m", None)
  /\ exists err,
       ReadMe Fake.boldRender engine MkGlow (Dagger.FileID "LICENSE")
       = (EmptyString, Some err)
       /\ Go.Unwrap err = Some (Go.Errorf "no such file")
       /\ Go.Error err = "could not read README.md: no such file".
Proof.
  intros engine. split.
  - exact (proj1 (ReadMe_wraps_read_failure Fake.boldRender engine MkGlow
                    (Dagger.FileID "README.md"))).
  - exact (proj1 (ReadMe_wraps_read_failure Fake.boldRender engine MkGlow
                    (Dagger.FileID "LICENSE"))).
Defined.

End GlowFacts.

(** ** The jq program of [PullRequest] *)

Module JqFacts.

Import Jq.

(** The parsed program prints as the string that [PullRequest] builds. *)
Lemma show_pullsProgram (defaultBranch : string) :
  show (pullsProgram defaultBranch) = Signoff.pullsFilter defaultBranch.
Proof.
  unfold pullsProgram, Signoff.pullsFilter. cbn [show showPath].
  rewrite !GoFacts.append_assoc. reflexivity.
Qed.

(** The program keeps the open pull requests against the default
    branch, whatever their head. *)
Lemma pullsProgram_selects (defaultBranch : string) (prs : list PullRequest) :
  eval (pullsProgram defaultBranch) (JArray (map toJSON prs))
  = Some (map (fun pr => JString (html_url pr))
              (filter (openAgainst defaultBranch) prs)).
Proof.
  unfold pullsProgram. cbn [eval].
  induction prs as [|[st b h u] prs IH]; [reflexivity|].
  cbn [map collect filter]. rewrite IH.
  unfold openAgainst. cbn [state base_ref html_url].
  cbn [eval toJSON getpath lookup state base_ref head_ref html_url
       String.eqb Ascii.eqb Bool.eqb].
  destruct (st =? "open")%string; cbn [collect map app andb]; [|reflexivity].
  cbn [eval toJSON getpath lookup state base_ref head_ref html_url
       String.eqb Ascii.eqb Bool.eqb].
  destruct (b =? defaultBranch)%string; reflexivity.
Qed.

(** *** From the text to the program *)

Lemma option_map_app_nil {A : Type} (x : option (list A)) :
  option_map (app []) x = x.
Proof. now destruct x. Qed.

Lemma append_nil_r (s : string) : s ++ EmptyString = s.
Proof. induction s as [|c s IH]; cbn; [reflexivity | now rewrite IH]. Qed.

(** A plain string between double quotes is read as one literal, byte
    for byte. *)
Lemma lex_plain (d acc rest : string) :
  JqSyntax.plain d = true ->
  JqSyntax.lex (JqSyntax.InStr acc) (d ++ String "034" rest)
  = option_map (cons (JqSyntax.TStr (acc ++ d)))
               (JqSyntax.lex JqSyntax.Start rest).
Proof.
  revert acc. induction d as [|c d IH]; intros acc Hd.
  - cbn. now rewrite append_nil_r.
  - cbn [JqSyntax.plain] in Hd. apply andb_true_iff in Hd as [Hc Hd].
    cbn [append JqSyntax.lex JqSyntax.next]. rewrite Hc.
    assert (Hq : (nat_of_ascii c =? 34)%nat = false).
    { unfold JqSyntax.plainChar in Hc.
      apply andb_true_iff in Hc as [Hc _].
      apply andb_true_iff in Hc as [_ Hc].
      now apply negb_true_iff in Hc. }
    rewrite Hq, option_map_app_nil, IH by exact Hd.
    now rewrite GoFacts.append_assoc.
Qed.

Lemma lex_scan (p s : string) (m : JqSyntax.mode) :
  JqSyntax.lex m (p ++ s)
  = match JqSyntax.scan m p with
    | Some (out, m') => option_map (app out) (JqSyntax.lex m' s)
    | None => None
    end.
Proof.
  revert m. induction p as [|c p IH]; intros m.
  - cbn. now rewrite option_map_app_nil.
  - cbn [append JqSyntax.lex JqSyntax.scan].
    destruct (JqSyntax.next m c) as [[out m']|]; [|reflexivity].
    rewrite IH. destruct (JqSyntax.scan m' p) as [[out' m'']|]; [|reflexivity].
    destruct (JqSyntax.lex m'' s) as [ts|]; cbn; [|reflexivity].
    now rewrite app_assoc.
Qed.

(** The text that [PullRequest] builds on a plain default branch is
    read as [pullsProgram]. *)
Lemma parse_pullsFilter (defaultBranch : string) :
  JqSyntax.plain defaultBranch = true ->
  JqSyntax.parse (Signoff.pullsFilter defaultBranch)
  = Some (pullsProgram defaultBranch).
Proof.
  intros Hd. unfold JqSyntax.parse.
  change (Signoff.pullsFilter defaultBranch)
    with ((".[] | select(.state == " ++ Go.dquote ++ "open" ++ Go.dquote
           ++ ") | select(.base.ref == " ++ Go.dquote)
          ++ defaultBranch ++ String "034" ") | .html_url").
  rewrite lex_scan.
  match goal with
  | |- context [JqSyntax.scan JqSyntax.Start ?p] =>
      let r := eval vm_compute in (JqSyntax.scan JqSyntax.Start p) in
      change (JqSyntax.scan JqSyntax.Start p) with r
  end.
  cbv beta iota. rewrite lex_plain by exact Hd.
  match goal with
  | |- context [JqSyntax.lex JqSyntax.Start ?t] =>
      let r := eval vm_compute in (JqSyntax.lex JqSyntax.Start t) in
      change (JqSyntax.lex JqSyntax.Start t) with r
  end.
  reflexivity.
Qed.

(** X13.  When the default branch can be put between double quotes as
    it is, the text that [PullRequest] hands to [gh] reads as a program
    that returns, on a list of pull requests and in the order of the
    list, the URLs of those that are open and whose base is the default
    branch, whatever their head. *)
Theorem pullsFilter_selects (defaultBranch : string)
        (prs : list PullRequest) :
  JqSyntax.plain defaultBranch = true ->
  exists program,
    JqSyntax.parse (Signoff.pullsFilter defaultBranch) = Some program
    /\ eval program (JArray (map toJSON prs))
       = Some (map (fun pr => JString (html_url pr))
                   (filter (openAgainst defaultBranch) prs)).
Proof.
  intros Hd. exists (pullsProgram defaultBranch).
  split; [now apply parse_pullsFilter | apply pullsProgram_selects].
Qed.

(** On the two open pull requests against [main] both URLs come out. *)
Lemma pullsFilter_selects_witness :
  exists program,
    JqSyntax.parse (Signoff.pullsFilter "main") = Some program
    /\ eval program (JArray (map toJSON Fake.pulls))
       = Some [ JString "https://github.com/o/r/pull/1";
                JString "https://github.com/o/r/pull/2" ].
Proof.
  exact (pullsFilter_selects "main" Fake.pulls eq_refl).
Defined.

(** C9, on two open pull requests against [main] while the current
    branch is [topic].  The program that [PullRequest] hands to [gh]
    keeps both URLs; a filter on the head as well would keep the first
    one only. *)
Theorem PullRequest_ignores_head :
  show (pullsProgram "main") = Signoff.pullsFilter "main"
  /\ eval (pullsProgram "main") (JArray (map toJSON Fake.pulls))
     = Some [ JString "https://github.com/o/r/pull/1";
              JString "https://github.com/o/r/pull/2" ]
  /\ map html_url (filter (ofCurrentBranch "main" "topic") Fake.pulls)
     = [ "https://github.com/o/r/pull/1" ].
Proof. repeat split. Qed.

End JqFacts.

(** ** Module [signoff] *)

Module SignoffFacts.

Import Dagger Signoff.

(** Unfolds the monad and the accessors, leaving the answers of the
    engine as the only unknowns. *)
Ltac unfold_go :=
  unfold Create, PullRequest, OpenPR, WhoIs, Sha, IsClean, DefaultBranch, Out,
    Signoff.Stdout, Signoff.Stderr, Signoff.ExitCode,
    WithGhExec, WithGitExec, Signoff.WithExec,
    bind, ret, ask, getContainer, setContainer, getCheckName, Print,
    holding, asking, saying, gitLog, gitPushRef, gitStatus, ghDefaultBranch, ghUser,
    gitHead, run;
  cbn [this asked printed Container CheckName Sources Token].

Ltac simpl_go :=
  cbn [fst snd isNil negb orb
       this asked printed Container CheckName Sources Token].

(** Case analysis on one answer of the engine; the equation is kept for
    the later occurrences of the same query. *)
Ltac answer_of t :=
  let v := fresh "v" in
  let e := fresh "e" in
  destruct t as [v [e|]] eqn:?; simpl_go.

(** Case analysis on every answer and every test the goal depends on. *)
Ltac engine_cases :=
  repeat
    (match goal with
     | H : ?t = _ |- context [?t] => rewrite H; simpl_go
     | |- context [Dagger.Stdout ?en ?c] => answer_of (Dagger.Stdout en c)
     | |- context [Dagger.Stderr ?en ?c] => answer_of (Dagger.Stderr en c)
     | |- context [Dagger.ExitCode ?en ?c] => answer_of (Dagger.ExitCode en c)
     | |- context [String.eqb ?a ?b] =>
         destruct (String.eqb a b) eqn:?; simpl_go
     | |- context [Z.eqb ?a ?b] =>
         destruct (Z.eqb a b) eqn:?; simpl_go
     end).

(** Queries are logged one by one; the statements list them at once. *)
Ltac same_world := rewrite <- ?app_assoc; reflexivity.

Section Engine.

Variable engine : Engine.

(** What [Out] does, query by query. *)
Lemma Out_run (w : World) :
  let c := Container (this w) in
  Out engine w =
  match Dagger.Stdout engine c with
  | (_, Some e) => ((EmptyString, Some e), asking w [QStdout c])
  | (stdOut, None) =>
      match Dagger.Stderr engine c with
      | (_, Some e) =>
          ((EmptyString, Some e), asking w [QStdout c; QStderr c])
      | (stdErr, None) =>
          match Dagger.ExitCode engine c with
          | (_, Some e) =>
              ((EmptyString, Some e),
               asking w [QStdout c; QStderr c; QExitCode c])
          | (code, None) =>
              ((stdOut ++ Go.LF ++ stdErr,
                if (code =? 0)%Z then None
                else Some (Go.Errorf ("exit code " ++ Go.itoa code))),
               asking w [QStdout c; QStderr c; QExitCode c])
          end
      end
  end.
Proof.
  destruct w as [[src tok c chk] qs lines]. unfold_go.
  engine_cases; same_world.
Qed.

(** What [IsClean] does, condition by condition. *)
Lemma IsClean_run (w : World) :
  let c := Container (this w) in
  IsClean engine w =
  if negb (noChanges engine c) then
    (Some errDirty, asking (holding w (gitStatus c)) [QStdout (gitStatus c)])
  else if negb (tracking engine c) then
    (Some errUntracked,
     asking (holding w (gitPushRef c))
            [QStdout (gitStatus c); QExitCode (gitPushRef c)])
  else
    (if negb (pushed engine c) then Some errAhead else None,
     asking (holding w (gitLog c))
            [QStdout (gitStatus c); QExitCode (gitPushRef c);
             QStdout (gitLog c)]).
Proof.
  destruct w as [[src tok c chk] qs lines].
  unfold noChanges, tracking, pushed, errDirty, errUntracked, errAhead.
  unfold_go. engine_cases; same_world.
Qed.

Lemma Sha_run (w : World) :
  let c := gitHead (Container (this w)) in
  Sha engine w =
  (match Dagger.Stdout engine c with
   | (_, Some e) => (EmptyString, Some e)
   | (out, None) => (Go.TrimSpace out, None)
   end,
   asking (holding w c) [QStdout c]).
Proof.
  destruct w as [[src tok c chk] qs lines]. unfold_go.
  engine_cases; same_world.
Qed.

Lemma WhoIs_run (w : World) :
  let c := ghUser (Container (this w)) in
  WhoIs engine w =
  (let '((out, err), w') := Out engine (holding w c) in
   (match err with
    | Some e => (EmptyString, Some e)
    | None => (Go.TrimSpace out, None)
    end, w')).
Proof.
  unfold WhoIs, WithGhExec, Signoff.WithExec, bind, ret, getContainer,
    setContainer, holding, ghUser, run.
  destruct (Out engine _) as [[out [e|]] w']; reflexivity.
Qed.

Lemma DefaultBranch_run (w : World) :
  let c := ghDefaultBranch (Container (this w)) in
  DefaultBranch engine w =
  (Dagger.Stdout engine c, asking (holding w c) [QStdout c]).
Proof.
  destruct w as [[src tok c chk] qs lines]. unfold_go. reflexivity.
Qed.

(** [PullRequest] asks for the default branch and hands its answer, as
    it is, to the jq program of the second command. *)
Lemma PullRequest_run (w : World) :
  let cdb := ghDefaultBranch (Container (this w)) in
  PullRequest engine w =
  match Dagger.Stdout engine cdb with
  | (_, Some e) =>
      ((EmptyString, Some e), asking (holding w cdb) [QStdout cdb])
  | (defaultBranch, None) =>
      let c := run cdb ["gh"; "api"; "repos/:owner/:repo/pulls";
                        "--jq"; pullsFilter defaultBranch] in
      (match Dagger.Stdout engine c with
       | (_, Some e) => (EmptyString, Some e)
       | (out, None) => (Go.TrimSpace out, None)
       end,
       asking (holding w c) [QStdout cdb; QStdout c])
  end.
Proof.
  destruct w as [[src tok c chk] qs lines]. unfold_go.
  engine_cases; same_world.
Qed.

(** [Create], stage by stage. *)
Lemma Create_run (w : World) :
  Create engine w =
  match IsClean engine w with
  | (Some e, w1) => (Some e, w1)
  | (None, w1) =>
      match Sha engine w1 with
      | ((_, Some e), w2) => (Some e, w2)
      | ((sha, None), w2) =>
          match WhoIs engine w2 with
          | ((_, Some e), w3) => (Some e, w3)
          | ((user, None), w3) =>
              let post := "gh" :: statusPost sha (CheckName (this w3)) user in
              match Out engine (holding w3 (run (Container (this w3)) post))
              with
              | ((out, Some e), w4) =>
                  (Some (Go.Errorw (out ++ ": " ++ Go.Error e) e), w4)
              | ((_, None), w4) =>
                  (None, saying w4 ["✓ Signed off on " ++ sha ++ Go.LF])
              end
          end
      end
  end.
Proof.
  unfold Create, bind, ret.
  destruct (IsClean engine w) as [[e|] w1]; [reflexivity|].
  destruct (Sha engine w1) as [[sha [e|]] w2]; [reflexivity|].
  destruct (WhoIs engine w2) as [[user [e|]] w3]; [reflexivity|].
  unfold getCheckName, WithGhExec, Signoff.WithExec, bind, getContainer,
    setContainer, holding, run.
  destruct (Out engine _) as [[out [e|]] w4]; reflexivity.
Qed.

End Engine.

(** *** Commands of a container *)

Lemma execs_run (c : Dagger.Container) (args : list string) :
  execs (run c args) = (execs c ++ [args])%list.
Proof.
  unfold execs, run, Dagger.WithExec, step. cbn [Steps].
  rewrite flat_map_app. reflexivity.
Qed.

Lemma statusPosts_run (c : Dagger.Container) (args : list string) :
  statusPosts (run c args) =
  (statusPosts c ++ if isStatusPost args then [args] else [])%list.
Proof.
  unfold statusPosts. rewrite execs_run, filter_app. cbn [filter].
  now destruct (isStatusPost args).
Qed.

Lemma statusPosts_gitLog (c : Dagger.Container) :
  statusPosts (gitLog c) = statusPosts c
  /\ statusPosts (gitPushRef c) = statusPosts c
  /\ statusPosts (gitStatus c) = statusPosts c.
Proof.
  unfold gitLog, gitPushRef, gitStatus.
  rewrite !statusPosts_run. cbn [isStatusPost String.eqb Ascii.eqb Bool.eqb
                                 andb].
  now rewrite !app_nil_r.
Qed.

Lemma statusPosts_gitHead (c : Dagger.Container) :
  statusPosts (gitHead c) = statusPosts c.
Proof.
  unfold gitHead. rewrite statusPosts_run.
  cbn [isStatusPost String.eqb Ascii.eqb Bool.eqb andb].
  now rewrite app_nil_r.
Qed.

Lemma statusPosts_ghUser (c : Dagger.Container) :
  statusPosts (ghUser c) = statusPosts c.
Proof.
  unfold ghUser. rewrite statusPosts_run.
  cbn [isStatusPost String.eqb Ascii.eqb Bool.eqb andb].
  now rewrite app_nil_r.
Qed.

Lemma isStatusPost_statusPost (sha checkName user : string) :
  isStatusPost ("gh" :: statusPost sha checkName user) = true.
Proof.
  unfold statusPost, isStatusPost.
  cbn [String.eqb Ascii.eqb Bool.eqb andb].
  cbn. induction sha; reflexivity.
Qed.

(** [Out] leaves the receiver alone and queries its container only. *)
Lemma Out_frame (engine : Engine) (w : World) :
  let c := Container (this w) in
  let w' := snd (Out engine w) in
  this w' = this w
  /\ printed w' = printed w
  /\ exists qs, asked w' = (asked w ++ QStdout c :: qs)%list
               /\ Forall (fun q => queried q = c) qs.
Proof.
  intros c w'. subst w'. rewrite (Out_run engine w). fold c.
  destruct (Dagger.Stdout engine c) as [stdOut [e|]].
  { repeat split. now exists []. }
  destruct (Dagger.Stderr engine c) as [stdErr [e|]].
  { repeat split. exists [QStderr c]. split; [reflexivity|].
    now repeat constructor. }
  destruct (Dagger.ExitCode engine c) as [code [e|]];
    (repeat split; exists [QStderr c; QExitCode c];
     split; [reflexivity | now repeat constructor]).
Qed.

(** *** The cleanliness check *)

(** C1.  [IsClean] checks the three conditions in the order dirty,
    untracked, ahead.  The first condition that fails decides the
    error, each condition has a message of its own, and neither the
    command nor the query of a later condition is issued: the world
    after a failure holds the commands and the queries up to the
    failing condition only.  [IsClean] returns nil exactly when the
    three conditions hold. *)
Theorem IsClean_first_failure (engine : Engine) (w : World) :
  let c := Container (this w) in
  IsClean engine w =
    (if negb (noChanges engine c) then
       (Some (Go.Errorf "found uncommitted changes in the repo"),
        asking (holding w (gitStatus c)) [QStdout (gitStatus c)])
     else if negb (tracking engine c) then
       (Some (Go.Errorf "no tracking branch found"),
        asking (holding w (gitPushRef c))
               [QStdout (gitStatus c); QExitCode (gitPushRef c)])
     else if negb (pushed engine c) then
       (Some (Go.Errorf "found unpushed commits in the repo"),
        asking (holding w (gitLog c))
               [QStdout (gitStatus c); QExitCode (gitPushRef c);
                QStdout (gitLog c)])
     else
       (None,
        asking (holding w (gitLog c))
               [QStdout (gitStatus c); QExitCode (gitPushRef c);
                QStdout (gitLog c)]))
  /\ (fst (IsClean engine w) = None <->
      noChanges engine c = true /\ tracking engine c = true
      /\ pushed engine c = true)
  /\ Go.Error errDirty <> Go.Error errUntracked
  /\ Go.Error errDirty <> Go.Error errAhead
  /\ Go.Error errUntracked <> Go.Error errAhead.
Proof.
  intros c. rewrite (IsClean_run engine w). fold c.
  unfold errDirty, errUntracked, errAhead.
  destruct (noChanges engine c), (tracking engine c), (pushed engine c);
    cbn [negb fst Go.Error];
    (split; [reflexivity|]);
    (split; [split; [intros H; try discriminate H; now repeat split
                    | now intros (? & ? & ?)]|]);
    repeat split; discriminate.
Qed.

(** The clean clone passes; a modified file, a missing upstream and an
    unpushed commit each fail with their own error, and the dirty clone
    is asked for its status only. *)
Lemma IsClean_first_failure_witness :
  fst (IsClean (Fake.engine Fake.cleanRepo) Fake.world0) = None
  /\ fst (IsClean (Fake.engine Fake.dirtyRepo) Fake.world0) = Some errDirty
  /\ fst (IsClean (Fake.engine Fake.untrackedRepo) Fake.world0)
     = Some errUntracked
  /\ fst (IsClean (Fake.engine Fake.aheadRepo) Fake.world0) = Some errAhead
  /\ asked (snd (IsClean (Fake.engine Fake.dirtyRepo) Fake.world0))
     = [QStdout (gitStatus (Container Fake.signoff0))].
Proof.
  refine (conj _ (conj _ (conj _ (conj _ _)))).
  - exact (f_equal fst
             (proj1 (IsClean_first_failure (Fake.engine Fake.cleanRepo) Fake.world0))).
  - exact (f_equal fst
             (proj1 (IsClean_first_failure (Fake.engine Fake.dirtyRepo) Fake.world0))).
  - exact (f_equal fst
             (proj1 (IsClean_first_failure (Fake.engine Fake.untrackedRepo)
                                  Fake.world0))).
  - exact (f_equal fst
             (proj1 (IsClean_first_failure (Fake.engine Fake.aheadRepo) Fake.world0))).
  - exact (f_equal (fun r => asked (snd r))
             (proj1 (IsClean_first_failure (Fake.engine Fake.dirtyRepo) Fake.world0))).
Defined.

(** Whatever [IsClean] answers, it adds no status request and queries
    no container that holds a new one. *)
Lemma IsClean_frame (engine : Engine) (w : World) :
  let c := Container (this w) in
  let w1 := snd (IsClean engine w) in
  CheckName (this w1) = CheckName (this w)
  /\ printed w1 = printed w
  /\ statusPosts (Container (this w1)) = statusPosts c
  /\ (exists cmds,
        execs (Container (this w1)) = (execs c ++ cmds)%list
        /\ Forall (fun args => isStatusPost args = false) cmds)
  /\ (exists qs,
        asked w1 = (asked w ++ qs)%list
        /\ Forall (fun q => statusPosts (queried q) = statusPosts c) qs).
Proof.
  intros c w1. subst w1. rewrite (IsClean_run engine w). fold c.
  destruct (statusPosts_gitLog c) as (Hlog & Hpush & Hstatus).
  destruct (noChanges engine c); cbn [negb];
    [destruct (tracking engine c); cbn [negb]|];
    cbn [snd asking holding this asked printed Container CheckName queried];
    (split; [reflexivity|]); (split; [reflexivity|]);
    (split; [assumption|]).
  - split.
    + exists [["git"; "status"; "--porcelain"];
              ["git"; "rev-parse"; "--abbrev-ref"; "@{push}"];
              ["git"; "log"; "@{push}.."]].
      split; [|now repeat constructor].
      unfold gitLog, gitPushRef, gitStatus.
      rewrite !execs_run, <- !app_assoc. reflexivity.
    + eexists; split; [reflexivity|]. now repeat constructor.
  - split.
    + exists [["git"; "status"; "--porcelain"];
              ["git"; "rev-parse"; "--abbrev-ref"; "@{push}"]].
      split; [|now repeat constructor].
      unfold gitPushRef, gitStatus.
      rewrite !execs_run, <- !app_assoc. reflexivity.
    + eexists; split; [reflexivity|]. now repeat constructor.
  - split.
    + exists [["git"; "status"; "--porcelain"]].
      split; [|now repeat constructor].
      unfold gitStatus. now rewrite execs_run.
    + eexists; split; [reflexivity|]. now repeat constructor.
Qed.

(** *** Sign-off *)

(** C2.  When [IsClean] returns an error, [Create] returns that error
    in the world [IsClean] left: no command that posts a status was
    appended to the container, and no container the engine was asked to
    evaluate holds one that was not there before. *)
Theorem Create_requires_clean (engine : Engine) (w w1 : World) (e : Go.error) :
  IsClean engine w = (Some e, w1) ->
  Create engine w = (Some e, w1)
  /\ statusPosts (Container (this w1)) = statusPosts (Container (this w))
  /\ (exists cmds,
        execs (Container (this w1)) = (execs (Container (this w)) ++ cmds)%list
        /\ Forall (fun args => isStatusPost args = false) cmds)
  /\ (exists qs,
        asked w1 = (asked w ++ qs)%list
        /\ Forall (fun q => statusPosts (queried q)
                            = statusPosts (Container (this w))) qs).
Proof.
  intros H. split.
  - rewrite Create_run, H. reflexivity.
  - pose proof (IsClean_frame engine w) as F. rewrite H in F.
    cbn [snd] in F. destruct F as (_ & _ & F1 & F2 & F3). auto.
Qed.

(** With a modified file in the clone, [Create] stops on the first
    condition and posts nothing. *)
Lemma Create_requires_clean_witness :
  let engine := Fake.engine Fake.dirtyRepo in
  let w1 := snd (IsClean engine Fake.world0) in
  Create engine Fake.world0 = (Some errDirty, w1)
  /\ statusPosts (Container (this w1)) = [].
Proof.
  intros engine w1.
  destruct (Create_requires_clean engine Fake.world0 w1 errDirty eq_refl)
    as (H1 & H2 & _).
  split; [exact H1 | exact H2].
Defined.

Lemma Sha_frame (engine : Engine) (w : World) :
  let w2 := snd (Sha engine w) in
  this w2 = this (holding w (gitHead (Container (this w)))).
Proof. cbv zeta. now rewrite Sha_run. Qed.

Lemma WhoIs_frame (engine : Engine) (w : World) :
  let w3 := snd (WhoIs engine w) in
  this w3 = this (holding w (ghUser (Container (this w)))).
Proof.
  cbv zeta. rewrite WhoIs_run.
  pose proof (Out_frame engine (holding w (ghUser (Container (this w)))))
    as (H & _).
  destruct (Out engine _) as [[out err] w']. exact H.
Qed.

Lemma Contains_quoted (user : string) :
  Go.Contains (Go.dquote ++ user ++ " signed off" ++ Go.dquote) user.
Proof. exists Go.dquote, (" signed off" ++ Go.dquote). reflexivity. Qed.

(** C3.  When the clone is clean, [Sha] answers [sha] and [WhoIs]
    answers [user], [Create] appends one command to the container and
    has it evaluated: a POST on the status endpoint of [sha] whose
    fields are the state success, the context [CheckName] and a
    description that contains [user].  It is the only status request
    that [Create] adds. *)
Theorem Create_posts_status (engine : Engine) (w w1 w2 w3 : World)
        (sha user : string) :
  IsClean engine w = (None, w1) ->
  Sha engine w1 = ((sha, None), w2) ->
  WhoIs engine w2 = ((user, None), w3) ->
  let post := "gh" :: statusPost sha (CheckName (this w)) user in
  let w4 := snd (Create engine w) in
  Container (this w4) = run (Container (this w3)) post
  /\ statusPosts (Container (this w4))
     = (statusPosts (Container (this w)) ++ [post])%list
  /\ In (QStdout (Container (this w4))) (asked w4)
  /\ firstn 5 post
     = ["gh"; "api"; "--method"; "POST"; "repos/:owner/:repo/statuses/" ++ sha]
  /\ fields post
     = [ "state=success";
         "context=" ++ CheckName (this w);
         "description=" ++ Go.dquote ++ user ++ " signed off" ++ Go.dquote ]
  /\ Go.Contains (Go.dquote ++ user ++ " signed off" ++ Go.dquote) user.
Proof.
  intros Hclean Hsha Hwho post w4.
  pose proof (IsClean_frame engine w) as (Hname & _ & Hposts & _).
  rewrite Hclean in Hname, Hposts. cbn [snd] in Hname, Hposts.
  pose proof (Sha_frame engine w1) as Hthis2.
  rewrite Hsha in Hthis2. cbn [snd] in Hthis2.
  pose proof (WhoIs_frame engine w2) as Hthis3.
  rewrite Hwho in Hthis3. cbn [snd] in Hthis3.
  assert (Hname3 : CheckName (this w3) = CheckName (this w)).
  { rewrite Hthis3. cbn [holding this CheckName]. rewrite Hthis2.
    cbn [holding this CheckName]. exact Hname. }
  assert (Hposts3 : statusPosts (Container (this w3))
                    = statusPosts (Container (this w))).
  { rewrite Hthis3. cbn [holding this Container]. rewrite statusPosts_ghUser.
    rewrite Hthis2. cbn [holding this Container].
    rewrite statusPosts_gitHead. exact Hposts. }
  set (w' := holding w3 (run (Container (this w3)) post)).
  assert (Hrun : Container (this w4) = run (Container (this w3)) post
                 /\ In (QStdout (run (Container (this w3)) post)) (asked w4)).
  { subst w4. rewrite Create_run, Hclean, Hsha, Hwho. cbv zeta.
    rewrite Hname3. fold post. fold w'.
    pose proof (Out_frame engine w') as (Hthis & _ & qs & Hqs & _).
    destruct (Out engine w') as [[out [e|]] wout];
      cbn [snd saying this asked] in *;
      (split; [now rewrite Hthis|]);
      rewrite Hqs; apply in_or_app; right; now left. }
  destruct Hrun as [Hc Hq]. rewrite Hc.
  split; [reflexivity|]. split.
  { rewrite statusPosts_run, Hposts3. subst post.
    now rewrite isStatusPost_statusPost. }
  split; [exact Hq|]. split; [reflexivity|]. split; [reflexivity|].
  apply Contains_quoted.
Qed.

(** The example of the specification: commit [abc123], user [alice],
    check name [signoff]. *)
Lemma Create_posts_status_witness :
  let engine := Fake.engine Fake.cleanRepo in
  statusPosts (Container (this (snd (Create engine Fake.world0))))
  = [ [ "gh"; "api"; "--method"; "POST";
        "repos/:owner/:repo/statuses/abc123";
        "-f"; "state=success";
        "-f"; "context=signoff";
        "-f"; "description=" ++ Go.dquote ++ "alice signed off"
              ++ Go.dquote ] ].
Proof.
  intros engine.
  set (w1 := snd (IsClean engine Fake.world0)).
  set (w2 := snd (Sha engine w1)).
  set (w3 := snd (WhoIs engine w2)).
  exact (proj1 (proj2 (Create_posts_status engine Fake.world0 w1 w2 w3
                         "abc123" "alice" eq_refl eq_refl eq_refl))).
Defined.

(** C6.  [Create] stops at the first stage that fails and returns the
    error of that stage: the error of [IsClean], of [Sha] or of
    [WhoIs], unchanged.  When the status request itself fails, the
    error of [Out] is wrapped and its message is prefixed with the
    output that [Out] returned, which for a non-zero exit code is the
    standard output, a line feed and the standard error of the
    request. *)
Theorem Create_first_error (engine : Engine) (w : World) :
  (forall e w1,
     IsClean engine w = (Some e, w1) -> Create engine w = (Some e, w1))
  /\ (forall w1 sha e w2,
        IsClean engine w = (None, w1) ->
        Sha engine w1 = ((sha, Some e), w2) ->
        Create engine w = (Some e, w2))
  /\ (forall w1 sha w2 user e w3,
        IsClean engine w = (None, w1) ->
        Sha engine w1 = ((sha, None), w2) ->
        WhoIs engine w2 = ((user, Some e), w3) ->
        Create engine w = (Some e, w3))
  /\ (forall w1 sha w2 user w3 out e w4,
        IsClean engine w = (None, w1) ->
        Sha engine w1 = ((sha, None), w2) ->
        WhoIs engine w2 = ((user, None), w3) ->
        Out engine
            (holding w3 (run (Container (this w3))
                             ("gh" :: statusPost sha (CheckName (this w3))
                                                 user)))
        = ((out, Some e), w4) ->
        exists err,
          Create engine w = (Some err, w4)
          /\ Go.Unwrap err = Some e
          /\ Go.Error err = out ++ ": " ++ Go.Error e)
  /\ (forall w1 sha w2 user w3 stdOut stdErr code,
        IsClean engine w = (None, w1) ->
        Sha engine w1 = ((sha, None), w2) ->
        WhoIs engine w2 = ((user, None), w3) ->
        let c := run (Container (this w3))
                     ("gh" :: statusPost sha (CheckName (this w3)) user) in
        Dagger.Stdout engine c = (stdOut, None) ->
        Dagger.Stderr engine c = (stdErr, None) ->
        Dagger.ExitCode engine c = (code, None) ->
        code <> 0%Z ->
        exists err,
          fst (Create engine w) = Some err
          /\ Go.Unwrap err = Some (Go.Errorf ("exit code " ++ Go.itoa code))
          /\ Go.Error err = (stdOut ++ Go.LF ++ stdErr) ++ ": "
                            ++ "exit code " ++ Go.itoa code).
Proof.
  repeat split.
  - intros e w1 H. now rewrite Create_run, H.
  - intros w1 sha e w2 H1 H2. now rewrite Create_run, H1, H2.
  - intros w1 sha w2 user e w3 H1 H2 H3. now rewrite Create_run, H1, H2, H3.
  - intros w1 sha w2 user w3 out e w4 H1 H2 H3 H4.
    rewrite Create_run, H1, H2, H3. cbv zeta. rewrite H4.
    eexists; repeat split.
  - intros w1 sha w2 user w3 stdOut stdErr code H1 H2 H3 c Ho He Hc Hcode.
    rewrite Create_run, H1, H2, H3. cbv zeta. fold c.
    rewrite Out_run. cbn [holding this Container]. rewrite Ho, He, Hc.
    destruct (Z.eqb_spec code 0) as [->|_]; [now contradiction Hcode|].
    eexists; repeat split.
Qed.

(** On the refused status request the caller gets the output of [gh]
    and the exit code. *)
Lemma Create_first_error_witness :
  exists err,
    fst (Create (Fake.engine Fake.refusedStatus) Fake.world0) = Some err
    /\ Go.Unwrap err = Some (Go.Errorf "exit code 1")
    /\ Go.Error err
       = ("{}" ++ Go.LF ++ "gh: Not Found (HTTP 404)") ++ ": exit code 1".
Proof.
  set (engine := Fake.engine Fake.refusedStatus).
  set (w1 := snd (IsClean engine Fake.world0)).
  set (w2 := snd (Sha engine w1)).
  set (w3 := snd (WhoIs engine w2)).
  destruct (Create_first_error engine Fake.world0) as (_ & _ & _ & _ & H).
  refine (H w1 "abc123" w2 "alice" w3 "{}" "gh: Not Found (HTTP 404)" 1%Z
            eq_refl eq_refl eq_refl eq_refl eq_refl eq_refl _).
  discriminate.
Defined.

(** *** Branch protection *)

Lemma protectionRequests_run (c : Dagger.Container) (args : list string) :
  protectionRequests (run c args) =
  (protectionRequests c ++ if isProtectionRequest args then [args] else [])%list.
Proof.
  unfold protectionRequests. rewrite execs_run, filter_app. cbn [filter].
  now destruct (isProtectionRequest args).
Qed.

Lemma Install_named (engine : Engine) (Quote : string -> string)
      (branch : string) (w : World) :
  branch <> EmptyString ->
  let w' := snd (Install engine Quote branch w) in
  let c := run (Container (this w))
               ("gh" :: protectionPut branch (CheckName (this w))) in
  Container (this w') = c
  /\ exists qs, asked w' = (asked w ++ QStdout c :: qs)%list
               /\ Forall (fun q => queried q = c) qs.
Proof.
  intros Hne w' c. subst w'. unfold Install.
  apply String.eqb_neq in Hne. rewrite Hne.
  pose proof (Out_frame engine (holding w c)) as (Hthis & _ & qs & Hqs & Hall).
  subst c.
  cbv [bind getCheckName WithGhExec Signoff.WithExec getContainer
       setContainer ret Print].
  unfold holding, run in *. cbn [this asked Container] in Hthis, Hqs, Hall.
  destruct (Out engine _) as [[out [e|]] wout];
    cbn [snd this asked] in *; rewrite Hthis; (split; [reflexivity|]);
    exists qs; split; assumption.
Qed.

Lemma Uninstall_named (engine : Engine) (Quote : string -> string)
      (branch : string) (w : World) :
  branch <> EmptyString ->
  let w' := snd (Uninstall engine Quote branch w) in
  let c := run (Container (this w)) ("gh" :: protectionDelete branch) in
  Container (this w') = c
  /\ exists qs, asked w' = (asked w ++ QStdout c :: qs)%list
               /\ Forall (fun q => queried q = c) qs.
Proof.
  intros Hne w' c. subst w'. unfold Uninstall.
  apply String.eqb_neq in Hne. rewrite Hne.
  pose proof (Out_frame engine (holding w c)) as (Hthis & _ & qs & Hqs & Hall).
  subst c.
  cbv [bind getCheckName WithGhExec Signoff.WithExec getContainer
       setContainer ret Print].
  unfold holding, run in *. cbn [this asked Container] in Hthis, Hqs, Hall.
  destruct (Out engine _) as [[out [e|]] wout];
    cbn [snd this asked] in *; rewrite Hthis; (split; [reflexivity|]);
    exists qs; split; assumption.
Qed.

(** C5.  With an empty branch argument, [Install] and [Uninstall] first
    append and evaluate the command that asks for the default branch.
    When that query fails, or when it answers the empty string, they
    return an error in the world that holds that one command and that
    one query: no protection request was appended.  Otherwise they go
    on as with the resolved name, and the protection request is
    appended to, and evaluated after, the default branch command. *)
Theorem Install_Uninstall_default_branch
        (engine : Engine) (Quote : string -> string) (w : World) :
  let c := Container (this w) in
  let cdb := ghDefaultBranch c in
  let w1 := asking (holding w cdb) [QStdout cdb] in
  Install engine Quote EmptyString w =
    match Dagger.Stdout engine cdb with
    | (_, Some e) =>
        (Some (Go.Errorw ("could not get the default branch: " ++ Go.Error e)
                         e), w1)
    | (branch, None) =>
        if (branch =? EmptyString)%string then
          (Some (Go.Errorf "could not install without a branch name"), w1)
        else Install engine Quote branch w1
    end
  /\ Uninstall engine Quote EmptyString w =
    match Dagger.Stdout engine cdb with
    | (_, Some e) =>
        (Some (Go.Errorw ("could not get the default branch: " ++ Go.Error e)
                         e), w1)
    | (branch, None) =>
        if (branch =? EmptyString)%string then
          (Some (Go.Errorf "could not uninstall without a branch name"), w1)
        else Uninstall engine Quote branch w1
    end
  /\ protectionRequests (Container (this w1)) = protectionRequests c
  /\ (forall branch,
        branch <> EmptyString ->
        let put := run cdb ("gh" :: protectionPut branch (CheckName (this w))) in
        let w' := snd (Install engine Quote branch w1) in
        Container (this w') = put
        /\ exists qs, asked w' = (asked w ++ QStdout cdb :: QStdout put :: qs)%list
                     /\ Forall (fun q => queried q = put) qs)
  /\ (forall branch,
        branch <> EmptyString ->
        let del := run cdb ("gh" :: protectionDelete branch) in
        let w' := snd (Uninstall engine Quote branch w1) in
        Container (this w') = del
        /\ exists qs, asked w' = (asked w ++ QStdout cdb :: QStdout del :: qs)%list
                     /\ Forall (fun q => queried q = del) qs).
Proof.
  intros c cdb w1. split; [|split; [|split; [|split]]].
  - unfold Install at 1. cbn [String.eqb]. unfold bind at 1.
    rewrite DefaultBranch_run. fold c. fold cdb. fold w1.
    destruct (Dagger.Stdout engine cdb) as [branch [e|]]; [reflexivity|].
    unfold Install. destruct (branch =? EmptyString)%string; reflexivity.
  - unfold Uninstall at 1. cbn [String.eqb]. unfold bind at 1.
    rewrite DefaultBranch_run. fold c. fold cdb. fold w1.
    destruct (Dagger.Stdout engine cdb) as [branch [e|]]; [reflexivity|].
    unfold Uninstall. destruct (branch =? EmptyString)%string; reflexivity.
  - subst w1 cdb. cbn [asking holding this Container].
    unfold ghDefaultBranch. rewrite protectionRequests_run.
    cbn. now rewrite app_nil_r.
  - intros branch Hne put w'.
    destruct (Install_named engine Quote branch w1 Hne) as (Hc & qs & Hqs & Hall).
    subst w1. cbn [asking holding this asked Container CheckName] in Hc, Hqs, Hall.
    split; [exact Hc|]. exists qs. split; [|exact Hall].
    subst w'. rewrite Hqs, <- app_assoc. reflexivity.
  - intros branch Hne del w'.
    destruct (Uninstall_named engine Quote branch w1 Hne) as (Hc & qs & Hqs & Hall).
    subst w1. cbn [asking holding this asked Container CheckName] in Hc, Hqs, Hall.
    split; [exact Hc|]. exists qs. split; [|exact Hall].
    subst w'. rewrite Hqs, <- app_assoc. reflexivity.
Qed.

(** When the repository has no default branch, both operations stop
    after the one query. *)
Lemma Install_Uninstall_default_branch_witness :
  let engine := Fake.engine Fake.noDefaultBranch in
  let c := ghDefaultBranch (Container Fake.signoff0) in
  let w1 := asking (holding Fake.world0 c) [QStdout c] in
  Install engine Fake.quote EmptyString Fake.world0
  = (Some (Go.Errorf "could not install without a branch name"), w1)
  /\ Uninstall engine Fake.quote EmptyString Fake.world0
     = (Some (Go.Errorf "could not uninstall without a branch name"), w1).
Proof.
  intros engine c w1.
  destruct (Install_Uninstall_default_branch engine Fake.quote Fake.world0)
    as (H1 & H2 & _).
  split; [exact H1 | exact H2].
Defined.

(** *** Trimmed answers *)

(** [DefaultBranch] hands back the answer of the engine as it is. *)
Lemma DefaultBranch_raw (engine : Engine) (w : World) :
  fst (DefaultBranch engine w)
  = Dagger.Stdout engine (ghDefaultBranch (Container (this w))).
Proof. now rewrite DefaultBranch_run. Qed.

(** [gh] ends its output with a line feed, and so does the result of
    [DefaultBranch]. *)
Example DefaultBranch_line_feed :
  fst (DefaultBranch (Fake.engine Fake.cleanRepo) Fake.world0)
  = ("main" ++ Go.LF, None)
  /\ ~ Go.noTrailingSpace ("main" ++ Go.LF).
Proof. split; [reflexivity | discriminate]. Qed.

(** What [Sha] and [WhoIs] return.  [Sha] returns the standard output
    of its command trimmed, and [WhoIs] returns the combined output of [Out]
    (standard output, line feed, standard error) trimmed, which is the
    trimmed standard output when the standard error is empty; on an
    error both return the empty string.  In every case the string has
    no white space at either end. *)
Theorem Sha_WhoIs_trimmed (engine : Engine) (w : World) :
  let c := Container (this w) in
  fst (Sha engine w)
    = match Dagger.Stdout engine (gitHead c) with
      | (_, Some e) => (EmptyString, Some e)
      | (out, None) => (Go.TrimSpace out, None)
      end
  /\ fst (WhoIs engine w)
    = match fst (Out engine (holding w (ghUser c))) with
      | (_, Some e) => (EmptyString, Some e)
      | (out, None) => (Go.TrimSpace out, None)
      end
  /\ (forall stdOut stdErr,
        Dagger.Stdout engine (ghUser c) = (stdOut, None) ->
        Dagger.Stderr engine (ghUser c) = (stdErr, None) ->
        Dagger.ExitCode engine (ghUser c) = (0%Z, None) ->
        fst (WhoIs engine w)
        = (Go.TrimSpace (stdOut ++ Go.LF ++ stdErr), None))
  /\ (forall stdOut,
        Dagger.Stdout engine (ghUser c) = (stdOut, None) ->
        Dagger.Stderr engine (ghUser c) = (EmptyString, None) ->
        Dagger.ExitCode engine (ghUser c) = (0%Z, None) ->
        fst (WhoIs engine w) = (Go.TrimSpace stdOut, None))
  /\ Go.noLeadingSpace (fst (fst (Sha engine w)))
  /\ Go.noTrailingSpace (fst (fst (Sha engine w)))
  /\ Go.noLeadingSpace (fst (fst (WhoIs engine w)))
  /\ Go.noTrailingSpace (fst (fst (WhoIs engine w))).
Proof.
  intros c.
  assert (HS : fst (Sha engine w)
               = match Dagger.Stdout engine (gitHead c) with
                 | (_, Some e) => (EmptyString, Some e)
                 | (out, None) => (Go.TrimSpace out, None)
                 end).
  { now rewrite Sha_run. }
  assert (HW : fst (WhoIs engine w)
               = match fst (Out engine (holding w (ghUser c))) with
                 | (_, Some e) => (EmptyString, Some e)
                 | (out, None) => (Go.TrimSpace out, None)
                 end).
  { rewrite WhoIs_run. fold c.
    now destruct (Out engine (holding w (ghUser c))) as [[out [e|]] w']. }
  split; [exact HS|]. split; [exact HW|]. split.
  { intros stdOut stdErr Ho He Hc. rewrite HW, Out_run.
    cbn [holding this Container]. now rewrite Ho, He, Hc. }
  split.
  { intros stdOut Ho He Hc. rewrite HW, Out_run.
    cbn [holding this Container]. rewrite Ho, He, Hc. cbn [Z.eqb].
    now rewrite <- (GoFacts.TrimSpace_LF stdOut). }
  rewrite HS, HW.
  destruct (Dagger.Stdout engine (gitHead c)) as [out [e|]];
    destruct (fst (Out engine (holding w (ghUser c)))) as [out' [e'|]];
    cbn [fst];
    auto using GoFacts.TrimSpace_noLeadingSpace,
               GoFacts.TrimSpace_noTrailingSpace,
               GoFacts.noLeadingSpace_empty, GoFacts.noTrailingSpace_empty.
Qed.

(** C4, on the clean clone.  [gh] prints the default branch and a line
    feed; [DefaultBranch] returns the line feed with it, so its result
    ends with white space and is not its trimmed standard output, while
    [Sha] and [WhoIs] return their answers trimmed. *)
Theorem DefaultBranch_not_trimmed :
  let engine := Fake.engine Fake.cleanRepo in
  fst (DefaultBranch engine Fake.world0) = ("main" ++ Go.LF, None)
  /\ Go.TrimSpace ("main" ++ Go.LF) = "main"
  /\ ~ Go.noTrailingSpace (fst (fst (DefaultBranch engine Fake.world0)))
  /\ fst (Sha engine Fake.world0) = ("abc123", None)
  /\ fst (WhoIs engine Fake.world0) = ("alice", None)
  /\ ~ allTrimmed engine Fake.world0.
Proof.
  intros engine.
  split; [reflexivity|]. split; [reflexivity|]. split; [discriminate|].
  split; [reflexivity|]. split; [reflexivity|].
  intros (H & _ & _).
  destruct (H _ eq_refl) as [Heq _].
  vm_compute in Heq. discriminate Heq.
Qed.

(** On the clean clone both strings come back without the line feed of
    the command output. *)
Lemma Sha_WhoIs_trimmed_witness :
  let engine := Fake.engine Fake.cleanRepo in
  fst (Sha engine Fake.world0) = ("abc123", None)
  /\ fst (WhoIs engine Fake.world0) = ("alice", None).
Proof.
  intros engine.
  destruct (Sha_WhoIs_trimmed engine Fake.world0) as (HS & _ & _ & HW & _).
  split; [exact HS|].
  exact (HW ("alice" ++ Go.LF) eq_refl eq_refl eq_refl).
Defined.

(** With a warning of [gh] on the standard error, [WhoIs] returns
    without error a string that is not its trimmed standard output. *)
Lemma WhoIs_not_trimmed_stdout :
  ~ allTrimmed (Fake.engine Fake.noisyGh) Fake.world0.
Proof.
  intros (_ & _ & H).
  destruct (H _ eq_refl) as [Heq _].
  vm_compute in Heq. discriminate Heq.
Qed.

(** *** The combined output *)

(** C10.  [Out] returns the standard output, a line feed and the
    standard error of the command.  Its error is non-nil exactly when a
    query fails or the exit code is not zero, and with a non-zero exit
    code the combined output comes with the error. *)
Theorem Out_combined (engine : Engine) (w : World) :
  let c := Container (this w) in
  (forall stdOut stdErr code,
     Dagger.Stdout engine c = (stdOut, None) ->
     Dagger.Stderr engine c = (stdErr, None) ->
     Dagger.ExitCode engine c = (code, None) ->
     fst (Out engine w) =
     (stdOut ++ Go.LF ++ stdErr,
      if (code =? 0)%Z then None
      else Some (Go.Errorf ("exit code " ++ Go.itoa code))))
  /\ (snd (fst (Out engine w)) <> None <->
      snd (Dagger.Stdout engine c) <> None
      \/ snd (Dagger.Stderr engine c) <> None
      \/ snd (Dagger.ExitCode engine c) <> None
      \/ fst (Dagger.ExitCode engine c) <> 0%Z).
Proof.
  intros c. rewrite (Out_run engine w). fold c. split.
  - intros stdOut stdErr code -> -> ->. reflexivity.
  - destruct (Dagger.Stdout engine c) as [stdOut [e|]]; cbn [fst snd].
    { split; [intros _; left|]; discriminate. }
    destruct (Dagger.Stderr engine c) as [stdErr [e|]]; cbn [fst snd].
    { split; [intros _; right; left|]; discriminate. }
    destruct (Dagger.ExitCode engine c) as [code [e|]]; cbn [fst snd].
    { split; [intros _; right; right; left|]; discriminate. }
    destruct (Z.eqb_spec code 0) as [->|Hcode]; cbn [fst snd].
    + split; [intros H; now contradiction H|].
      intros [H|[H|[H|H]]]; now contradiction H.
    + split; [intros _; now repeat right | discriminate].
Qed.

(** On the refused status request the combined output is returned with
    the error of the exit code. *)
Lemma Out_combined_witness :
  let w := holding Fake.world0
             (run (Container Fake.signoff0)
                  ("gh" :: statusPost "abc123" "signoff" "alice")) in
  fst (Out (Fake.engine Fake.refusedStatus) w) =
  ("{}" ++ Go.LF ++ "gh: Not Found (HTTP 404)",
   Some (Go.Errorf "exit code 1")).
Proof.
  intros w.
  exact (proj1 (Out_combined (Fake.engine Fake.refusedStatus) w)
               "{}" "gh: Not Found (HTTP 404)" 1%Z
               eq_refl eq_refl eq_refl).
Defined.

End SignoffFacts.

(** ** What every operation keeps *)

Module FrameFacts.

Import Dagger Signoff Frame.

Local Open Scope go_scope.

Lemma extends_refl (c : Dagger.Container) : extends c c.
Proof. split; [reflexivity|]. exists []. now rewrite app_nil_r. Qed.

Lemma extends_trans (a b c : Dagger.Container) :
  extends a b -> extends b c -> extends a c.
Proof.
  intros [Hp1 [m1 H1]] [Hp2 [m2 H2]]. split; [congruence|].
  exists (m1 ++ m2)%list. now rewrite H2, H1, app_assoc.
Qed.

Lemma extends_run (c : Dagger.Container) (args : list string) :
  extends c (run c args).
Proof. split; [reflexivity|]. now exists [StepExec args ReturnTypeAny]. Qed.

Lemma Grows_extends (P : list string -> bool) (w w' : World) :
  Grows P w w' -> extends (Container (this w)) (Container (this w')).
Proof.
  intros (_ & _ & _ & Hp & (cmds & Hs & _) & _). split; [exact Hp|].
  now exists (commands cmds).
Qed.

Lemma Grows_refl (P : list string -> bool) (w : World) : Grows P w w.
Proof.
  repeat split.
  - exists []. split; [now rewrite app_nil_r | constructor].
  - exists []. split; [now rewrite app_nil_r | constructor].
  - exists []. now rewrite app_nil_r.
Qed.

Lemma Grows_trans (P : list string -> bool) (w1 w2 w3 : World) :
  Grows P w1 w2 -> Grows P w2 w3 -> Grows P w1 w3.
Proof.
  intros G12 G23.
  pose proof (Grows_extends P w1 w2 G12) as E12.
  pose proof (Grows_extends P w2 w3 G23) as E23.
  destruct G12 as (S1 & T1 & N1 & P1 & (c1 & Hc1 & F1) & (q1 & Hq1 & A1)
                   & (l1 & Hl1)).
  destruct G23 as (S2 & T2 & N2 & P2 & (c2 & Hc2 & F2) & (q2 & Hq2 & A2)
                   & (l2 & Hl2)).
  repeat split; try congruence.
  - exists (c1 ++ c2)%list. split.
    + unfold commands in *. now rewrite Hc2, Hc1, map_app, app_assoc.
    + apply Forall_app. now split.
  - exists (q1 ++ q2)%list. split; [now rewrite Hq2, Hq1, app_assoc|].
    apply Forall_app. split.
    + eapply Forall_impl; [|exact A1]. intros q [Ha Hb]. split; [exact Ha|].
      now apply extends_trans with (Container (this w2)).
    + eapply Forall_impl; [|exact A2]. intros q [Ha Hb]. split; [|exact Hb].
      now apply extends_trans with (Container (this w2)).
  - exists (l1 ++ l2)%list. now rewrite Hl2, Hl1, app_assoc.
Qed.

Lemma Grows_weaken (P Q : list string -> bool) (w w' : World) :
  (forall args, P args = true -> Q args = true) ->
  Grows P w w' -> Grows Q w w'.
Proof.
  intros HPQ (S1 & T1 & N1 & P1 & (c1 & Hc1 & F1) & HA & HL).
  repeat split; try assumption.
  exists c1. split; [exact Hc1|].
  eapply Forall_impl; [|exact F1]. exact HPQ.
Qed.

(** *** The rules of composition *)

Lemma Keeps_ret {A : Type} (P : list string -> bool) (a : A) :
  Keeps P (ret a).
Proof. intros w. apply Grows_refl. Qed.

Lemma Keeps_bind {A B : Type} (P : list string -> bool)
      (c : M A) (k : A -> M B) :
  Keeps P c -> (forall a, Keeps P (k a)) -> Keeps P (bind c k).
Proof.
  intros Hc Hk w. unfold bind.
  specialize (Hc w). destruct (c w) as [a w1]. cbn [snd] in Hc.
  apply Grows_trans with w1; [exact Hc | apply Hk].
Qed.

Lemma Keeps_getContainer (P : list string -> bool) : Keeps P getContainer.
Proof. intros w. apply Grows_refl. Qed.

Lemma Keeps_getCheckName (P : list string -> bool) : Keeps P getCheckName.
Proof. intros w. apply Grows_refl. Qed.

Lemma Keeps_Print (P : list string -> bool) (line : string) :
  Keeps P (Print line).
Proof.
  intros w. unfold Print. cbn [snd]. repeat split; cbn [this asked printed].
  - exists []. split; [now rewrite app_nil_r | constructor].
  - exists []. split; [now rewrite app_nil_r | constructor].
  - now exists [line].
Qed.

Lemma Keeps_WithExec (P : list string -> bool) (args : list string) :
  P args = true -> Keeps P (Signoff.WithExec args).
Proof.
  intros HP w. unfold Signoff.WithExec, bind, getContainer, setContainer.
  cbn [snd]. repeat split; cbn [this asked printed Container].
  - exists [args]. split; [reflexivity | now constructor].
  - exists []. split; [now rewrite app_nil_r | constructor].
  - exists []. now rewrite app_nil_r.
Qed.

Lemma Keeps_WithGitExec (args : list string) :
  Keeps isTool (WithGitExec args).
Proof. apply Keeps_WithExec. reflexivity. Qed.

Lemma Keeps_WithGhExec (args : list string) :
  Keeps isTool (WithGhExec args).
Proof. apply Keeps_WithExec. reflexivity. Qed.

Lemma Grows_asking (P : list string -> bool) (w : World) (q : Query) :
  queried q = Container (this w) -> Grows P w (asking w [q]).
Proof.
  intros Hq. repeat split; cbn [asking this asked printed].
  - exists []. split; [now rewrite app_nil_r | constructor].
  - exists [q]. split; [reflexivity|].
    constructor; [|constructor]. rewrite Hq. split; apply extends_refl.
  - exists []. now rewrite app_nil_r.
Qed.

Lemma Keeps_Stdout (P : list string -> bool) (engine : Engine) :
  Keeps P (Signoff.Stdout engine).
Proof. intros w. now apply (Grows_asking P w (QStdout _)). Qed.

Lemma Keeps_Stderr (P : list string -> bool) (engine : Engine) :
  Keeps P (Signoff.Stderr engine).
Proof. intros w. now apply (Grows_asking P w (QStderr _)). Qed.

Lemma Keeps_ExitCode (P : list string -> bool) (engine : Engine) :
  Keeps P (Signoff.ExitCode engine).
Proof. intros w. now apply (Grows_asking P w (QExitCode _)). Qed.

(** Applies the rules along the structure of an operation. *)
Ltac keeps :=
  repeat first
    [ apply Keeps_ret | apply Keeps_Print
    | apply Keeps_getContainer | apply Keeps_getCheckName
    | apply Keeps_Stdout | apply Keeps_Stderr | apply Keeps_ExitCode
    | apply Keeps_WithGitExec | apply Keeps_WithGhExec
    | assumption
    | apply Keeps_bind
    | match goal with
      | |- forall _, _ => intro
      | |- Keeps _ (match ?x with _ => _ end) => destruct x
      end ].

Section Engine.

Variable engine : Engine.
Variable Quote : string -> string.

Lemma Keeps_Out : Keeps isTool (Out engine).
Proof. unfold Out. keeps. Qed.

Lemma Keeps_IsClean : Keeps isTool (IsClean engine).
Proof. unfold IsClean. keeps. Qed.

Lemma Keeps_Sha : Keeps isTool (Sha engine).
Proof. unfold Sha. keeps. Qed.

Lemma Keeps_DefaultBranch : Keeps isTool (DefaultBranch engine).
Proof. unfold DefaultBranch. keeps. Qed.

Lemma Keeps_WhoIs : Keeps isTool (WhoIs engine).
Proof. pose proof Keeps_Out. unfold WhoIs. keeps. Qed.

Lemma Keeps_Create : Keeps isTool (Create engine).
Proof.
  pose proof Keeps_Out. pose proof Keeps_IsClean. pose proof Keeps_Sha.
  pose proof Keeps_WhoIs. unfold Create. keeps.
Qed.

Lemma Keeps_Install (branch : string) :
  Keeps isTool (Install engine Quote branch).
Proof.
  pose proof Keeps_Out. pose proof Keeps_DefaultBranch.
  unfold Install. cbv zeta. keeps.
Qed.

Lemma Keeps_Uninstall (branch : string) :
  Keeps isTool (Uninstall engine Quote branch).
Proof.
  pose proof Keeps_Out. pose proof Keeps_DefaultBranch.
  unfold Uninstall. cbv zeta. keeps.
Qed.

Lemma Keeps_PullRequest : Keeps isTool (PullRequest engine).
Proof. pose proof Keeps_DefaultBranch. unfold PullRequest. keeps. Qed.

Lemma Keeps_OpenPR (verbose : bool) : Keeps isTool (OpenPR engine verbose).
Proof. pose proof Keeps_Out. unfold OpenPR. cbv zeta. keeps. Qed.

End Engine.

(** X1.  No operation of the module rewrites what is there: each one
    keeps the sources, the token, the check name and the base image,
    appends commands that start with [git] or [gh] and run with
    [ReturnTypeAny], evaluates only containers between the one it
    started from and the one it leaves, and only adds lines to the
    output.  [WithExec] does the same with the command it is given, and
    [Terminal] changes nothing at all. *)
Theorem operations_only_append
        (engine : Engine) (Quote : string -> string)
        (branch : string) (verbose : bool) (args : list string) (w : World) :
  Grows isTool w (snd (IsClean engine w))
  /\ Grows isTool w (snd (Create engine w))
  /\ Grows isTool w (snd (Install engine Quote branch w))
  /\ Grows isTool w (snd (Uninstall engine Quote branch w))
  /\ Grows isTool w (snd (Sha engine w))
  /\ Grows isTool w (snd (WhoIs engine w))
  /\ Grows isTool w (snd (PullRequest engine w))
  /\ Grows isTool w (snd (OpenPR engine verbose w))
  /\ Grows isTool w (snd (DefaultBranch engine w))
  /\ Grows isTool w (snd (Out engine w))
  /\ Grows isTool w (snd (WithGitExec args w))
  /\ Grows isTool w (snd (WithGhExec args w))
  /\ Grows (Fake.eqArgs args) w (snd (Signoff.WithExec args w))
  /\ snd (Terminal w) = w.
Proof.
  split; [apply Keeps_IsClean|]. split; [apply Keeps_Create|].
  split; [apply Keeps_Install|]. split; [apply Keeps_Uninstall|].
  split; [apply Keeps_Sha|]. split; [apply Keeps_WhoIs|].
  split; [apply Keeps_PullRequest|]. split; [apply Keeps_OpenPR|].
  split; [apply Keeps_DefaultBranch|]. split; [apply Keeps_Out|].
  split; [apply Keeps_WithGitExec|]. split; [apply Keeps_WithGhExec|].
  split; [|reflexivity].
  apply Keeps_WithExec. induction args as [|a args IH]; cbn; [reflexivity|].
  now rewrite String.eqb_refl.
Qed.

Lemma prepared_extends (now : string) (sources : Directory) (token : Secret)
      (c : Dagger.Container) :
  extends (container now sources token) c -> prepared now sources token c.
Proof. intros [Hp [more Hs]]. split; [exact Hp|]. now exists more. Qed.

(** X2.  Whatever is run on a receiver made by [New], and however the
    operations are chained, every container that is evaluated starts
    with the steps of [New]: the two settings of [gh], the setup of the
    git credentials, the cache buster, the token as a secret variable,
    the working directory and the mounted sources, in that order and
    before any command of the operations.  The container that is left
    starts with them as well. *)
Theorem evaluated_containers_prepared
        {A : Type} (P : list string -> bool) (m : M A)
        (now : string) (sources : Directory) (token : Secret)
        (checkName : string) :
  Keeps P m ->
  let w' := snd (m (fresh (New now sources token checkName))) in
  Forall (fun q => prepared now sources token (queried q)) (asked w')
  /\ prepared now sources token (Container (this w')).
Proof.
  intros Hm w'. specialize (Hm (fresh (New now sources token checkName))).
  fold w' in Hm. pose proof (Grows_extends _ _ _ Hm) as Hext.
  destruct Hm as (_ & _ & _ & _ & _ & (qs & Hqs & Hall) & _).
  cbn [fresh asked this Container New] in Hqs, Hall, Hext. split.
  - rewrite Hqs. cbn [app]. eapply Forall_impl; [|exact Hall].
    intros q [Hq _]. now apply prepared_extends.
  - now apply prepared_extends.
Qed.

(** The queries of a sign-off on the clean clone all bear the token. *)
Lemma evaluated_containers_prepared_witness :
  let w' := snd (Create (Fake.engine Fake.cleanRepo) Fake.world0) in
  Forall (fun q => prepared "2024-05-01T10:00:00Z" (DirectoryID "src")
                            (SecretID "token") (queried q)) (asked w')
  /\ prepared "2024-05-01T10:00:00Z" (DirectoryID "src") (SecretID "token")
              (Container (this w')).
Proof.
  exact (evaluated_containers_prepared isTool
           (Create (Fake.engine Fake.cleanRepo))
           "2024-05-01T10:00:00Z" (DirectoryID "src") (SecretID "token")
           "signoff" (Keeps_Create (Fake.engine Fake.cleanRepo))).
Defined.

End FrameFacts.

(** ** More on the operations of [signoff] *)

Module OperationFacts.

Import Dagger Signoff Frame SignoffFacts.

Lemma printed_IsClean (engine : Engine) (w : World) :
  printed (snd (IsClean engine w)) = printed w.
Proof. now destruct (IsClean_frame engine w) as (_ & H & _). Qed.

Lemma printed_Sha (engine : Engine) (w : World) :
  printed (snd (Sha engine w)) = printed w.
Proof. now rewrite Sha_run. Qed.

Lemma printed_Out (engine : Engine) (w : World) :
  printed (snd (Out engine w)) = printed w.
Proof. now destruct (Out_frame engine w) as (_ & H & _). Qed.

Lemma printed_WhoIs (engine : Engine) (w : World) :
  printed (snd (WhoIs engine w)) = printed w.
Proof.
  rewrite WhoIs_run.
  pose proof (printed_Out engine
                (holding w (ghUser (Container (this w))))) as H.
  now destruct (Out engine _) as [[out err] w'].
Qed.

(** X3.  [Create] prints its confirmation exactly when it returns nil:
    then it adds the one line that names the commit [Sha] returned, and
    when it returns an error it prints nothing. *)
Theorem Create_confirms (engine : Engine) (w : World) :
  let w' := snd (Create engine w) in
  match fst (Create engine w) with
  | None =>
      exists sha,
        fst (Sha engine (snd (IsClean engine w))) = (sha, None)
        /\ printed w'
           = app (printed w) ["✓ Signed off on " ++ sha ++ Go.LF]
  | Some _ => printed w' = printed w
  end.
Proof.
  cbv zeta. rewrite Create_run.
  pose proof (printed_IsClean engine w) as H1.
  destruct (IsClean engine w) as [[e|] w1]; cbn [fst snd] in *;
    [exact H1|].
  pose proof (printed_Sha engine w1) as H2.
  destruct (Sha engine w1) as [[sha [e|]] w2]; cbn [fst snd] in *;
    [congruence|].
  pose proof (printed_WhoIs engine w2) as H3.
  destruct (WhoIs engine w2) as [[user [e|]] w3]; cbn [fst snd] in *;
    [congruence|].
  cbv zeta.
  pose proof (printed_Out engine
                (holding w3 (run (Container (this w3))
                                 ("gh" :: statusPost sha (CheckName (this w3))
                                                     user)))) as H4.
  destruct (Out engine _) as [[out [e|]] w4];
    cbn [fst snd holding printed saying] in *; [congruence|].
  exists sha. split; [reflexivity | congruence].
Qed.

Lemma IsClean_passed (engine : Engine) (w w1 : World) :
  IsClean engine w = (None, w1) ->
  this w1 = this (holding w (gitLog (Container (this w)))).
Proof.
  rewrite IsClean_run.
  destruct (noChanges engine _); cbn [negb]; [|discriminate].
  destruct (tracking engine _); cbn [negb]; [|discriminate].
  intros H. inversion H. reflexivity.
Qed.

(** X4.  On a clean clone, when [Sha] fails [Create] has run the three
    checks and the resolution of HEAD and nothing else, and when
    [WhoIs] fails it has run those and the user request and nothing
    else: in both cases no status request was appended. *)
Theorem Create_no_post_without_identity (engine : Engine) (w w1 : World) :
  IsClean engine w = (None, w1) ->
  let checks := [ ["git"; "status"; "--porcelain"];
                  ["git"; "rev-parse"; "--abbrev-ref"; "@{push}"];
                  ["git"; "log"; "@{push}.."];
                  ["git"; "rev-parse"; "HEAD"] ] in
  let c' := Container (this (snd (Create engine w))) in
  (forall sha e w2,
     Sha engine w1 = ((sha, Some e), w2) ->
     fst (Create engine w) = Some e
     /\ execs c' = (execs (Container (this w)) ++ checks)%list)
  /\ (forall sha w2 user e w3,
        Sha engine w1 = ((sha, None), w2) ->
        WhoIs engine w2 = ((user, Some e), w3) ->
        fst (Create engine w) = Some e
        /\ execs c'
           = (execs (Container (this w)) ++ checks
              ++ [["gh"; "api"; "user"; "--jq"; ".login"]])%list).
Proof.
  intros Hclean checks c'. subst c'.
  pose proof (IsClean_passed engine w w1 Hclean) as Hw1.
  split.
  - intros sha e w2 Hsha.
    pose proof (Sha_frame engine w1) as Hw2. rewrite Hsha in Hw2.
    cbn [snd] in Hw2.
    rewrite Create_run, Hclean, Hsha. cbn [fst snd]. split; [reflexivity|].
    rewrite Hw2. cbn [holding this Container]. rewrite Hw1.
    cbn [holding this Container].
    unfold gitHead, gitLog, gitPushRef, gitStatus.
    rewrite !execs_run, <- !app_assoc. reflexivity.
  - intros sha w2 user e w3 Hsha Hwho.
    pose proof (Sha_frame engine w1) as Hw2. rewrite Hsha in Hw2.
    cbn [snd] in Hw2.
    pose proof (WhoIs_frame engine w2) as Hw3. rewrite Hwho in Hw3.
    cbn [snd] in Hw3.
    rewrite Create_run, Hclean, Hsha, Hwho. cbn [fst snd].
    split; [reflexivity|].
    rewrite Hw3. cbn [holding this Container]. rewrite Hw2.
    cbn [holding this Container]. rewrite Hw1.
    cbn [holding this Container].
    unfold ghUser, gitHead, gitLog, gitPushRef, gitStatus.
    rewrite !execs_run, <- !app_assoc. reflexivity.
Qed.

(** With a token that the hosting API refuses, the sign-off stops after
    the user request. *)
Lemma Create_no_post_without_identity_witness :
  let engine := Fake.engine Scenes.badToken in
  fst (Create engine Fake.world0) = Some (Go.Errorf "exit code 1")
  /\ execs (Container (this (snd (Create engine Fake.world0))))
     = (execs (Container Fake.signoff0)
        ++ [ ["git"; "status"; "--porcelain"];
             ["git"; "rev-parse"; "--abbrev-ref"; "@{push}"];
             ["git"; "log"; "@{push}.."];
             ["git"; "rev-parse"; "HEAD"];
             ["gh"; "api"; "user"; "--jq"; ".login"] ])%list.
Proof.
  intros engine.
  set (w1 := snd (IsClean engine Fake.world0)).
  set (w2 := snd (Sha engine w1)).
  set (w3 := snd (WhoIs engine w2)).
  exact (proj2 (Create_no_post_without_identity engine Fake.world0 w1 eq_refl)
               "abc123" w2 EmptyString (Go.Errorf "exit code 1") w3
               eq_refl eq_refl).
Defined.

(** *** Branch protection on a named branch *)

Lemma Install_run (engine : Engine) (Quote : string -> string)
      (branch : string) (w : World) :
  branch <> EmptyString ->
  let chk := CheckName (this w) in
  let c := run (Container (this w)) ("gh" :: protectionPut branch chk) in
  Install engine Quote branch w =
  match Out engine (holding w c) with
  | ((out, Some e), w') =>
      (Some (Go.Errorw
               ("could not install signoff check " ++ Quote chk
                ++ " to branch " ++ Quote branch ++ ": "
                ++ Go.Error e ++ Go.LF ++ out) e), w')
  | ((_, None), w') =>
      (None,
       saying w' ["✓ GitHub " ++ chk
                  ++ " branch now requires signoff on check " ++ Quote branch])
  end.
Proof.
  intros Hne chk c. unfold Install.
  apply String.eqb_neq in Hne. rewrite Hne.
  cbv [bind getCheckName WithGhExec Signoff.WithExec getContainer
       setContainer ret Print].
  subst c chk. unfold holding, run, saying.
  destruct (Out engine _) as [[out [e|]] w']; reflexivity.
Qed.

Lemma Uninstall_run (engine : Engine) (Quote : string -> string)
      (branch : string) (w : World) :
  branch <> EmptyString ->
  let c := run (Container (this w)) ("gh" :: protectionDelete branch) in
  Uninstall engine Quote branch w =
  match Out engine (holding w c) with
  | ((out, Some e), w') =>
      (Some (Go.Errorw
               ("could not uninstall branch protection for branch "
                ++ Quote branch ++ ": " ++ Go.Error e ++ Go.LF ++ out) e), w')
  | ((_, None), w') =>
      (None,
       saying w' ["✓ GitHub " ++ CheckName (this w')
                  ++ " branch no longer requires signoff"])
  end.
Proof.
  intros Hne c. unfold Uninstall.
  apply String.eqb_neq in Hne. rewrite Hne.
  cbv [bind getCheckName WithGhExec Signoff.WithExec getContainer
       setContainer ret Print].
  subst c. unfold holding, run, saying.
  destruct (Out engine _) as [[out [e|]] w']; reflexivity.
Qed.

Lemma isProtectionRequest_put (branch checkName : string) :
  isProtectionRequest ("gh" :: protectionPut branch checkName) = true.
Proof.
  unfold protectionPut, isProtectionRequest.
  cbn [String.eqb Ascii.eqb Bool.eqb andb].
  cbn. induction branch; reflexivity.
Qed.

Lemma isProtectionRequest_delete (branch : string) :
  isProtectionRequest ("gh" :: protectionDelete branch) = true.
Proof.
  unfold protectionDelete, isProtectionRequest.
  cbn [String.eqb Ascii.eqb Bool.eqb andb].
  cbn. induction branch; reflexivity.
Qed.

(** The statement below, with the request named by the helper of the
    model. *)
Lemma Install_on_branch_helper (engine : Engine) (Quote : string -> string)
        (branch : string) (w : World) :
  branch <> EmptyString ->
  let chk := CheckName (this w) in
  let put := "gh" :: protectionPut branch chk in
  let c := run (Container (this w)) put in
  let w' := snd (Install engine Quote branch w) in
  execs (Container (this w')) = (execs (Container (this w)) ++ [put])%list
  /\ protectionRequests (Container (this w'))
     = (protectionRequests (Container (this w)) ++ [put])%list
  /\ In ("required_status_checks[contexts][]=" ++ chk) put
  /\ (exists qs, asked w' = (asked w ++ qs)%list
                 /\ Forall (fun q => queried q = c) qs)
  /\ match fst (Out engine (holding w c)) with
     | (out, Some e) =>
         printed w' = printed w
         /\ exists err,
              fst (Install engine Quote branch w) = Some err
              /\ Go.Unwrap err = Some e
              /\ Go.Error err
                 = "could not install signoff check " ++ Quote chk
                   ++ " to branch " ++ Quote branch ++ ": "
                   ++ Go.Error e ++ Go.LF ++ out
     | (_, None) =>
         fst (Install engine Quote branch w) = None
         /\ printed w'
            = app (printed w)
                  ["✓ GitHub " ++ chk
                   ++ " branch now requires signoff on check " ++ Quote branch]
     end.
Proof.
  intros Hne chk put c w'.
  destruct (Install_named engine Quote branch w Hne) as (Hc & qs & Hqs & Hall).
  fold chk in Hc, Hqs, Hall. fold put in Hc, Hqs, Hall. fold c in Hc, Hqs, Hall.
  fold w' in Hc, Hqs.
  split; [rewrite Hc; apply execs_run|].
  split.
  { rewrite Hc. unfold c. rewrite protectionRequests_run. unfold put.
    now rewrite isProtectionRequest_put. }
  split; [unfold put, protectionPut; cbn; tauto|].
  split.
  { exists (QStdout c :: qs). split; [exact Hqs|]. now constructor. }
  subst w'. rewrite (Install_run engine Quote branch w Hne).
  fold chk. fold put. fold c.
  pose proof (printed_Out engine (holding w c)) as Hp.
  destruct (Out engine (holding w c)) as [[out [e|]] wo];
    cbn [fst snd holding printed saying] in *.
  - split; [exact Hp|]. eexists. repeat split.
  - split; [reflexivity | now rewrite Hp].
Qed.

(** X5.  With a branch name, [Install] does not look up the default
    branch: it appends the one PUT on the protection of that branch,
    which requires the check name as a status check, and evaluates
    that container only.  When the request succeeds with exit code 0 it
    returns nil and prints one line; otherwise it prints nothing and
    returns an error that wraps the error of [Out] and shows the quoted
    check name, the quoted branch and the output of the request. *)
Theorem Install_on_branch (engine : Engine) (Quote : string -> string)
        (branch : string) (w : World) :
  branch <> EmptyString ->
  let chk := CheckName (this w) in
  let put :=
    [ "gh"; "api";
      "/repos/:owner/:repo/branches/" ++ branch ++ "/protection";
      "--method"; "PUT";
      "-H"; "Accept: application/vnd.github+json";
      "-H"; "X-GitHub-Api-Version: 2022-11-28";
      "--field"; "required_status_checks[strict]=false";
      "--field"; "required_status_checks[contexts][]=" ++ chk;
      "--field"; "enforce_admins=null";
      "--field"; "required_pull_request_reviews=null";
      "--field"; "restrictions=null" ] in
  let c := run (Container (this w)) put in
  let w' := snd (Install engine Quote branch w) in
  execs (Container (this w')) = (execs (Container (this w)) ++ [put])%list
  /\ protectionRequests (Container (this w'))
     = (protectionRequests (Container (this w)) ++ [put])%list
  /\ In ("required_status_checks[contexts][]=" ++ chk) put
  /\ (exists qs, asked w' = (asked w ++ qs)%list
                 /\ Forall (fun q => queried q = c) qs)
  /\ match fst (Out engine (holding w c)) with
     | (out, Some e) =>
         printed w' = printed w
         /\ exists err,
              fst (Install engine Quote branch w) = Some err
              /\ Go.Unwrap err = Some e
              /\ Go.Error err
                 = "could not install signoff check " ++ Quote chk
                   ++ " to branch " ++ Quote branch ++ ": "
                   ++ Go.Error e ++ Go.LF ++ out
     | (_, None) =>
         fst (Install engine Quote branch w) = None
         /\ printed w'
            = app (printed w)
                  ["✓ GitHub " ++ chk
                   ++ " branch now requires signoff on check " ++ Quote branch]
     end.
Proof. exact (Install_on_branch_helper engine Quote branch w). Qed.

(** The protection of [main] is set and announced. *)
Lemma Install_on_branch_witness :
  let engine := Fake.engine Scenes.protectedMain in
  fst (Install engine Fake.quote "main" Fake.world0) = None
  /\ printed (snd (Install engine Fake.quote "main" Fake.world0))
     = [ "✓ GitHub signoff branch now requires signoff on check "
         ++ Fake.quote "main" ].
Proof.
  intros engine.
  assert (Hne : "main" <> EmptyString) by discriminate.
  exact (proj2 (proj2 (proj2 (proj2
           (Install_on_branch engine Fake.quote "main" Fake.world0 Hne))))).
Defined.

(** The statement below, with the request named by the helper of the
    model. *)
Lemma Uninstall_on_branch_helper (engine : Engine) (Quote : string -> string)
        (branch : string) (w : World) :
  branch <> EmptyString ->
  let del := "gh" :: protectionDelete branch in
  let c := run (Container (this w)) del in
  let w' := snd (Uninstall engine Quote branch w) in
  execs (Container (this w')) = (execs (Container (this w)) ++ [del])%list
  /\ protectionRequests (Container (this w'))
     = (protectionRequests (Container (this w)) ++ [del])%list
  /\ (exists qs, asked w' = (asked w ++ qs)%list
                 /\ Forall (fun q => queried q = c) qs)
  /\ match fst (Out engine (holding w c)) with
     | (out, Some e) =>
         printed w' = printed w
         /\ exists err,
              fst (Uninstall engine Quote branch w) = Some err
              /\ Go.Unwrap err = Some e
              /\ Go.Error err
                 = "could not uninstall branch protection for branch "
                   ++ Quote branch ++ ": " ++ Go.Error e ++ Go.LF ++ out
     | (_, None) =>
         fst (Uninstall engine Quote branch w) = None
         /\ printed w'
            = app (printed w)
                  ["✓ GitHub " ++ CheckName (this w)
                   ++ " branch no longer requires signoff"]
     end.
Proof.
  intros Hne del c w'.
  destruct (Uninstall_named engine Quote branch w Hne)
    as (Hc & qs & Hqs & Hall).
  fold del in Hc, Hqs, Hall. fold c in Hc, Hqs, Hall. fold w' in Hc, Hqs.
  split; [rewrite Hc; apply execs_run|].
  split.
  { rewrite Hc. unfold c. rewrite protectionRequests_run. unfold del.
    now rewrite isProtectionRequest_delete. }
  split.
  { exists (QStdout c :: qs). split; [exact Hqs|]. now constructor. }
  subst w'. rewrite (Uninstall_run engine Quote branch w Hne).
  fold del. fold c.
  pose proof (printed_Out engine (holding w c)) as Hp.
  destruct (Out_frame engine (holding w c)) as (Hthis & _).
  destruct (Out engine (holding w c)) as [[out [e|]] wo];
    cbn [fst snd holding printed saying this CheckName] in *.
  - split; [exact Hp|]. eexists. repeat split.
  - split; [reflexivity|]. now rewrite Hp, Hthis.
Qed.

(** X6.  With a branch name, [Uninstall] does not look up the default
    branch: it appends the one DELETE on the protection of that branch
    and evaluates that container only.  When the request succeeds with
    exit code 0 it returns nil and prints one line; otherwise it prints
    nothing and returns an error that wraps the error of [Out] and
    shows the quoted branch and the output of the request. *)
Theorem Uninstall_on_branch (engine : Engine) (Quote : string -> string)
        (branch : string) (w : World) :
  branch <> EmptyString ->
  let del :=
    [ "gh"; "api";
      "/repos/:owner/:repo/branches/" ++ branch ++ "/protection";
      "--method"; "DELETE" ] in
  let c := run (Container (this w)) del in
  let w' := snd (Uninstall engine Quote branch w) in
  execs (Container (this w')) = (execs (Container (this w)) ++ [del])%list
  /\ protectionRequests (Container (this w'))
     = (protectionRequests (Container (this w)) ++ [del])%list
  /\ (exists qs, asked w' = (asked w ++ qs)%list
                 /\ Forall (fun q => queried q = c) qs)
  /\ match fst (Out engine (holding w c)) with
     | (out, Some e) =>
         printed w' = printed w
         /\ exists err,
              fst (Uninstall engine Quote branch w) = Some err
              /\ Go.Unwrap err = Some e
              /\ Go.Error err
                 = "could not uninstall branch protection for branch "
                   ++ Quote branch ++ ": " ++ Go.Error e ++ Go.LF ++ out
     | (_, None) =>
         fst (Uninstall engine Quote branch w) = None
         /\ printed w'
            = app (printed w)
                  ["✓ GitHub " ++ CheckName (this w)
                   ++ " branch no longer requires signoff"]
     end.
Proof. exact (Uninstall_on_branch_helper engine Quote branch w). Qed.

(** A branch that has no protection: the error shows what [gh] said. *)
Lemma Uninstall_on_branch_witness :
  let engine := Fake.engine Scenes.unprotectedMain in
  printed (snd (Uninstall engine Fake.quote "main" Fake.world0)) = []
  /\ exists err,
       fst (Uninstall engine Fake.quote "main" Fake.world0) = Some err
       /\ Go.Unwrap err = Some (Go.Errorf "exit code 1")
       /\ Go.Error err
          = "could not uninstall branch protection for branch "
            ++ Fake.quote "main" ++ ": exit code 1" ++ Go.LF
            ++ "{}" ++ Go.LF ++ "gh: Branch not protected (HTTP 404)".
Proof.
  intros engine.
  assert (Hne : "main" <> EmptyString) by discriminate.
  exact (proj2 (proj2 (proj2
           (Uninstall_on_branch engine Fake.quote "main" Fake.world0 Hne)))).
Defined.

(** *** Queries *)

(** X7.  [PullRequest] stops on a failed default branch query without
    sending the second request.  Otherwise it sends
    [gh api repos/:owner/:repo/pulls] with the jq program built on the
    answer and returns the trimmed standard output of that request.  It
    asks for standard outputs only, so the exit code of neither request
    can turn into an error, and the string it returns has no white
    space at either end. *)
Theorem PullRequest_stdout (engine : Engine) (w : World) :
  let cdb := ghDefaultBranch (Container (this w)) in
  let w' := snd (PullRequest engine w) in
  (forall out e,
     Dagger.Stdout engine cdb = (out, Some e) ->
     fst (PullRequest engine w) = (EmptyString, Some e)
     /\ execs (Container (this w'))
        = (execs (Container (this w))
           ++ [["gh"; "api"; "repos/:owner/:repo"; "--jq";
                ".default_branch"]])%list)
  /\ (forall defaultBranch,
        Dagger.Stdout engine cdb = (defaultBranch, None) ->
        let pulls := ["gh"; "api"; "repos/:owner/:repo/pulls";
                      "--jq"; pullsFilter defaultBranch] in
        Container (this w') = run cdb pulls
        /\ fst (PullRequest engine w)
           = match Dagger.Stdout engine (run cdb pulls) with
             | (_, Some e) => (EmptyString, Some e)
             | (out, None) => (Go.TrimSpace out, None)
             end)
  /\ (exists qs, asked w' = (asked w ++ qs)%list
                 /\ forallb isStdoutQuery qs = true)
  /\ Go.noLeadingSpace (fst (fst (PullRequest engine w)))
  /\ Go.noTrailingSpace (fst (fst (PullRequest engine w))).
Proof.
  intros cdb w'. subst w'. rewrite (PullRequest_run engine w). fold cdb.
  split; [|split; [|split]].
  - intros out e ->. cbn [fst snd asking holding this Container].
    split; [reflexivity|]. unfold cdb, ghDefaultBranch. apply execs_run.
  - intros defaultBranch ->. cbv zeta. cbn [fst snd asking holding this
                                             Container].
    split; reflexivity.
  - destruct (Dagger.Stdout engine cdb) as [d [e|]]; cbv zeta;
      cbn [snd asking asked]; eexists; split; reflexivity.
  - destruct (Dagger.Stdout engine cdb) as [d [e|]]; cbv zeta; cbn [fst].
    + split; [apply GoFacts.noLeadingSpace_empty
             | apply GoFacts.noTrailingSpace_empty].
    + destruct (Dagger.Stdout engine _) as [out [e|]]; cbn [fst].
      * split; [apply GoFacts.noLeadingSpace_empty
               | apply GoFacts.noTrailingSpace_empty].
      * split; [apply GoFacts.TrimSpace_noLeadingSpace
               | apply GoFacts.TrimSpace_noTrailingSpace].
Qed.

(** X8.  [Sha], [DefaultBranch] and [PullRequest] depend on the
    standard outputs only: two engines that give the same standard
    outputs give the same results and the same worlds, whatever the
    exit codes and the standard errors.  [IsClean] depends on the
    standard outputs and on the exit code of the upstream lookup only. *)
Theorem exit_codes_ignored (engine1 engine2 : Engine) (w : World) :
  (forall c, Dagger.Stdout engine1 c = Dagger.Stdout engine2 c) ->
  Sha engine1 w = Sha engine2 w
  /\ DefaultBranch engine1 w = DefaultBranch engine2 w
  /\ PullRequest engine1 w = PullRequest engine2 w
  /\ (Dagger.ExitCode engine1 (gitPushRef (Container (this w)))
      = Dagger.ExitCode engine2 (gitPushRef (Container (this w))) ->
      IsClean engine1 w = IsClean engine2 w).
Proof.
  intros Hout. split; [|split; [|split]].
  - now rewrite !Sha_run, Hout.
  - now rewrite !DefaultBranch_run, Hout.
  - rewrite !PullRequest_run, Hout.
    destruct (Dagger.Stdout engine2 _) as [d [e|]]; [reflexivity|].
    cbv zeta. now rewrite Hout.
  - intros Hcode. rewrite !IsClean_run.
    unfold noChanges, tracking, pushed. now rewrite !Hout, Hcode.
Qed.

(** When every command exits with 128, [Sha] still answers [abc123]
    without error. *)
Lemma exit_codes_ignored_witness :
  let engine := Fake.engine Fake.cleanRepo in
  let failing := Scenes.exiting engine 128 "fatal: not a git repository" in
  Sha failing Fake.world0 = Sha engine Fake.world0
  /\ fst (Sha failing Fake.world0) = ("abc123", None).
Proof.
  intros engine failing. split; [|reflexivity].
  exact (proj1 (exit_codes_ignored failing engine Fake.world0
                  (fun c => eq_refl))).
Defined.

(** X9.  [OpenPR] appends one [gh pr create], with [--fill-verbose]
    when it is asked to be verbose and [--fill] otherwise, and returns
    what [Out] returns on it: when the queries succeed, the standard
    output, a line feed and the standard error, with an error exactly
    when the exit code is not zero. *)
Theorem OpenPR_create (engine : Engine) (verbose : bool) (w : World) :
  let create := ["gh"; "pr"; "create";
                 if verbose then "--fill-verbose" else "--fill"] in
  let c := run (Container (this w)) create in
  let w' := snd (OpenPR engine verbose w) in
  Container (this w') = c
  /\ printed w' = printed w
  /\ (forall stdOut stdErr code,
        Dagger.Stdout engine c = (stdOut, None) ->
        Dagger.Stderr engine c = (stdErr, None) ->
        Dagger.ExitCode engine c = (code, None) ->
        fst (OpenPR engine verbose w)
        = (stdOut ++ Go.LF ++ stdErr,
           if (code =? 0)%Z then None
           else Some (Go.Errorf ("exit code " ++ Go.itoa code)))).
Proof.
  intros create c w'. subst w'.
  assert (H : OpenPR engine verbose w = Out engine (holding w c)).
  { unfold OpenPR. cbv zeta.
    cbv [bind WithGhExec Signoff.WithExec getContainer setContainer].
    subst c create. unfold holding, run. now destruct verbose. }
  rewrite H.
  destruct (Out_frame engine (holding w c)) as (Hthis & Hp & _).
  split; [now rewrite Hthis|]. split; [exact Hp|].
  intros stdOut stdErr code Ho He Hc. rewrite Out_run.
  cbn [holding this Container]. now rewrite Ho, He, Hc.
Qed.

(** A pull request that exists already: the caller gets the message of
    [gh] and the exit code. *)
Lemma OpenPR_create_witness :
  fst (OpenPR (Fake.engine Scenes.existingPR) false Fake.world0)
  = (Go.LF ++ "a pull request for branch topic already exists",
     Some (Go.Errorf "exit code 1")).
Proof.
  exact (proj2 (proj2 (OpenPR_create (Fake.engine Scenes.existingPR) false
                                     Fake.world0))
               EmptyString "a pull request for branch topic already exists"
               1%Z eq_refl eq_refl eq_refl).
Defined.

(** X10.  [Out] leaves the receiver and the printed lines alone and
    evaluates the container of the receiver only.  It asks for the
    standard output, then the standard error, then the exit code, and
    stops at the first query that fails. *)
Theorem Out_queries (engine : Engine) (w : World) :
  let c := Container (this w) in
  let w' := snd (Out engine w) in
  this w' = this w
  /\ printed w' = printed w
  /\ exists n,
       asked w' = (asked w ++ firstn n [QStdout c; QStderr c; QExitCode c])%list
       /\ (n = 1 <-> snd (Dagger.Stdout engine c) <> None)
       /\ (n = 2 <-> snd (Dagger.Stdout engine c) = None
                     /\ snd (Dagger.Stderr engine c) <> None)
       /\ (n = 3 <-> snd (Dagger.Stdout engine c) = None
                     /\ snd (Dagger.Stderr engine c) = None).
Proof.
  intros c w'. subst w'. rewrite (Out_run engine w). fold c.
  destruct (Dagger.Stdout engine c) as [stdOut [e|]]; cbn [fst snd].
  { repeat split; exists 1; repeat split; try discriminate; try lia;
      intros []; congruence. }
  destruct (Dagger.Stderr engine c) as [stdErr [e|]]; cbn [fst snd].
  { repeat split; exists 2; repeat split; try discriminate; try lia;
      try congruence; intros []; congruence. }
  destruct (Dagger.ExitCode engine c) as [code [e|]]; cbn [fst snd];
    repeat split; exists 3; repeat split; try discriminate; try lia;
    try congruence; intros []; congruence.
Qed.

End OperationFacts.

(** ** Module [signoff], earlier revision *)

Module Signoff0Facts.

Import Dagger Signoff0.

Ltac unfold_go0 :=
  unfold Create, Sha, IsClean, Signoff0.Stdout, Signoff0.Stderr,
    Signoff0.ExitCode, WithGhExec, WithGitExec, Signoff0.WithExec,
    bind, ret, ask, getContainer, setContainer, Print, checked, run;
  cbn [this asked printed Container Sources Token].

Ltac simpl_go0 :=
  cbn [fst snd Signoff.isNil negb orb
       this asked printed Container Sources Token].

Ltac engine_cases0 :=
  repeat
    (match goal with
     | H : ?t = _ |- context [?t] => rewrite H; simpl_go0
     | |- context [Dagger.Stdout ?en ?c] =>
         destruct (Dagger.Stdout en c) as [? [?|]] eqn:?; simpl_go0
     | |- context [Dagger.ExitCode ?en ?c] =>
         destruct (Dagger.ExitCode en c) as [? [?|]] eqn:?; simpl_go0
     | |- context [String.eqb ?a ?b] =>
         destruct (String.eqb a b) eqn:?; simpl_go0
     | |- context [Z.eqb ?a ?b] =>
         destruct (Z.eqb a b) eqn:?; simpl_go0
     end).

Lemma execs_run0 (c : Dagger.Container) (args : list string) :
  execs (run c args) = (execs c ++ [args])%list.
Proof.
  unfold execs, run, Dagger.WithExec, step. cbn [Steps].
  rewrite flat_map_app. reflexivity.
Qed.

Lemma ghCommands_run0 (c : Dagger.Container) (args : list string) :
  ghCommands (run c args)
  = (ghCommands c
     ++ match args with
        | tool :: _ => if (tool =? "gh")%string then [args] else []
        | [] => []
        end)%list.
Proof.
  unfold ghCommands. rewrite execs_run0, filter_app. cbn [filter].
  destruct args as [|tool args]; [reflexivity|].
  now destruct (tool =? "gh")%string.
Qed.

Lemma ghCommands_checked (c : Dagger.Container) :
  ghCommands (checked c) = ghCommands c.
Proof.
  unfold checked. rewrite !ghCommands_run0.
  cbn [String.eqb Ascii.eqb Bool.eqb]. now rewrite !app_nil_r.
Qed.

(** The checks add no [gh] command and print nothing; when they pass,
    the three [git] commands are in the container. *)
Lemma IsClean0_frame (engine : Engine) (w : World) :
  let c := Container (this w) in
  let w1 := snd (IsClean engine w) in
  printed w1 = printed w
  /\ ghCommands (Container (this w1)) = ghCommands c
  /\ (fst (IsClean engine w) = None ->
      Container (this w1)
      = run (run (run c ["git"; "status"; "--porcelain"])
                 ["git"; "rev-parse"; "--abbrev-ref"; "@{push}"])
            ["git"; "log"; "@{push}.."]).
Proof.
  destruct w as [[src tok c] qs lines].
  cbn [this Container]. cbv zeta. unfold_go0.
  engine_cases0; (split; [reflexivity|]);
    (split; [|first [discriminate | reflexivity]]);
    repeat match goal with
           | |- context [Dagger.WithExec ?c ?a ReturnTypeSuccess] =>
               change (Dagger.WithExec c a ReturnTypeSuccess) with (run c a)
           end;
    rewrite !ghCommands_run0; cbn; now rewrite ?app_nil_r.
Qed.

Lemma Sha0_run (engine : Engine) (w : World) :
  let c := run (Container (this w)) ["git"; "rev-parse"; "HEAD"] in
  Sha engine w
  = (Dagger.Stdout engine c,
     {| this := {| Sources := Sources (this w);
                   Token := Token (this w);
                   Container := c |};
        asked := (asked w ++ [QStdout c])%list;
        printed := printed w |}).
Proof. reflexivity. Qed.

(** The statement below, with the request named by the helper of the
    model. *)
Lemma Create_posts_fixed_status_helper (engine : Engine) (w : World) :
  let c := Container (this w) in
  let w' := snd (Create engine w) in
  (forall e w1,
     IsClean engine w = (Some e, w1) ->
     Create engine w = (Some e, w1)
     /\ ghCommands (Container (this w1)) = ghCommands c)
  /\ (forall w1 out e w2,
        IsClean engine w = (None, w1) ->
        Sha engine w1 = ((out, Some e), w2) ->
        Create engine w = (Some e, w2)
        /\ ghCommands (Container (this w2)) = ghCommands c)
  /\ (forall w1 sha w2,
        IsClean engine w = (None, w1) ->
        Sha engine w1 = ((sha, None), w2) ->
        let post := "gh" :: statusPost sha in
        sha = fst (Dagger.Stdout engine (checked c))
        /\ Container (this w') = run (checked c) post
        /\ ghCommands (Container (this w')) = (ghCommands c ++ [post])%list
        /\ Signoff.fields post
           = [ "state=success"; "context=signoff";
               "description=" ++ Go.dquote ++ "${user} signed off"
               ++ Go.dquote ]
        /\ match snd (Dagger.ExitCode engine (run (checked c) post)) with
           | Some e =>
               fst (Create engine w) = Some e /\ printed w' = printed w
           | None =>
               fst (Create engine w) = None
               /\ printed w'
                  = app (printed w) ["✓ Signed off on " ++ sha ++ Go.LF]
           end).
Proof.
  intros c w'.
  pose proof (IsClean0_frame engine w) as (Hp & Hgh & Hc). fold c in Hgh, Hc.
  split; [|split].
  - intros e w1 H. rewrite H in Hgh. cbn [snd] in Hgh.
    split; [|exact Hgh]. unfold Create, bind, ret. now rewrite H.
  - intros w1 out e w2 H HS. rewrite H in Hgh, Hc. cbn [fst snd] in Hgh, Hc.
    specialize (Hc eq_refl).
    split; [unfold Create, bind, ret; now rewrite H, HS|].
    rewrite Sha0_run in HS. inversion HS. cbn [this Container].
    rewrite ghCommands_run0. cbn. now rewrite app_nil_r.
  - intros w1 sha w2 H HS post. rewrite H in Hp, Hgh, Hc.
    cbn [fst snd] in Hp, Hgh, Hc. specialize (Hc eq_refl).
    rewrite Sha0_run in HS. rewrite Hc in HS. fold (checked c) in HS.
    inversion HS as [[Hsha Hw2]]. clear HS.
    assert (Hrun : Create engine w
                   = (let '(_, err) :=
                        Dagger.ExitCode engine (run (checked c) post) in
                      match err with
                      | Some e =>
                          (Some e,
                           {| this := {| Sources := Sources (this w1);
                                         Token := Token (this w1);
                                         Container := run (checked c) post |};
                              asked := ((asked w1 ++ [QStdout (checked c)])
                                        ++ [QExitCode (run (checked c) post)])%list;
                              printed := printed w1 |})
                      | None =>
                          (None,
                           {| this := {| Sources := Sources (this w1);
                                         Token := Token (this w1);
                                         Container := run (checked c) post |};
                              asked := ((asked w1 ++ [QStdout (checked c)])
                                        ++ [QExitCode (run (checked c) post)])%list;
                              printed := app (printed w1)
                                             ["✓ Signed off on " ++ sha
                                              ++ Go.LF] |})
                      end)).
    { unfold Create, bind at 1. rewrite H. unfold bind at 1.
      rewrite Sha0_run, Hc. fold (checked c). rewrite Hsha.
      unfold_go0. fold (run (checked c) post).
      now destruct (Dagger.ExitCode engine _) as [code [e|]]. }
    subst w'. rewrite Hrun. rewrite Hsha.
    split; [reflexivity|].
    destruct (Dagger.ExitCode engine (run (checked c) post)) as [code [e|]];
      cbn [fst snd this Container printed];
      (split; [reflexivity|]);
      (split; [now rewrite ghCommands_run0, ghCommands_checked|]);
      (split; [reflexivity|]); split; congruence.
Qed.

(** X11.  In the earlier revision [Create] returns the error of
    [IsClean] or of [Sha] as it is and has then appended no [gh]
    command.  Otherwise it appends one POST on the status endpoint of
    the standard output of [git rev-parse HEAD] as it came, line feed
    included, with the state success, the context [signoff] and a
    description that holds the text [${user}] unreplaced.  It returns
    the error of the exit code query, whatever the exit code, and
    prints its confirmation exactly when that error is nil. *)
Theorem Create_posts_fixed_status (engine : Engine) (w : World) :
  let c := Container (this w) in
  let w' := snd (Create engine w) in
  (forall e w1,
     IsClean engine w = (Some e, w1) ->
     Create engine w = (Some e, w1)
     /\ ghCommands (Container (this w1)) = ghCommands c)
  /\ (forall w1 out e w2,
        IsClean engine w = (None, w1) ->
        Sha engine w1 = ((out, Some e), w2) ->
        Create engine w = (Some e, w2)
        /\ ghCommands (Container (this w2)) = ghCommands c)
  /\ (forall w1 sha w2,
        IsClean engine w = (None, w1) ->
        Sha engine w1 = ((sha, None), w2) ->
        let post :=
          [ "gh"; "api"; "--method"; "POST";
            "repos/:owner/:repo/statuses/" ++ sha;
            "-f"; "state=success";
            "-f"; "context=signoff";
            "-f"; "description=" ++ Go.dquote ++ "${user} signed off"
                  ++ Go.dquote ] in
        sha = fst (Dagger.Stdout engine (checked c))
        /\ Container (this w') = run (checked c) post
        /\ ghCommands (Container (this w')) = (ghCommands c ++ [post])%list
        /\ Signoff.fields post
           = [ "state=success"; "context=signoff";
               "description=" ++ Go.dquote ++ "${user} signed off"
               ++ Go.dquote ]
        /\ match snd (Dagger.ExitCode engine (run (checked c) post)) with
           | Some e =>
               fst (Create engine w) = Some e /\ printed w' = printed w
           | None =>
               fst (Create engine w) = None
               /\ printed w'
                  = app (printed w) ["✓ Signed off on " ++ sha ++ Go.LF]
           end).
Proof. exact (Create_posts_fixed_status_helper engine w). Qed.

(** On the clean clone the line feed of [git] ends up in the endpoint
    and in the confirmation. *)
Lemma Create_posts_fixed_status_witness :
  let engine := Fake.engine Fake.cleanRepo in
  let w' := snd (Create engine Scenes.world00) in
  ghCommands (Container (this w'))
  = [ ["gh"; "auth"; "setup-git"; "--force"; "--hostname"; "github.com"];
      [ "gh"; "api"; "--method"; "POST";
        "repos/:owner/:repo/statuses/abc123" ++ Go.LF;
        "-f"; "state=success";
        "-f"; "context=signoff";
        "-f"; "description=" ++ Go.dquote ++ "${user} signed off"
              ++ Go.dquote ] ]
  /\ printed w' = ["✓ Signed off on abc123" ++ Go.LF ++ Go.LF].
Proof.
  intros engine w'.
  set (w1 := snd (IsClean engine Scenes.world00)).
  set (w2 := snd (Sha engine w1)).
  destruct (proj2 (proj2 (Create_posts_fixed_status engine Scenes.world00))
                  w1 ("abc123" ++ Go.LF) w2 eq_refl eq_refl)
    as (_ & _ & Hgh & _ & _ & Hp).
  split; [exact Hgh | exact Hp].
Defined.

End Signoff0Facts.

(** ** The default branch as [gh] prints it *)

Module DefaultBranchFacts.

Import Dagger Signoff SignoffFacts.

(** X12.  With an empty branch argument, [Install] and [Uninstall] use
    the answer of the default branch query exactly as it came: when the
    answer is not empty, the path of the protection request is built on
    it unchanged, white space and final line feed included. *)
Theorem protection_uses_raw_default_branch
        (engine : Engine) (Quote : string -> string) (w : World)
        (answer : string) :
  let cdb := ghDefaultBranch (Container (this w)) in
  Dagger.Stdout engine cdb = (answer, None) ->
  answer <> EmptyString ->
  Container (this (snd (Install engine Quote EmptyString w)))
  = run cdb ("gh" :: protectionPut answer (CheckName (this w)))
  /\ nth 1 (protectionPut answer (CheckName (this w))) EmptyString
     = "/repos/:owner/:repo/branches/" ++ answer ++ "/protection"
  /\ Container (this (snd (Uninstall engine Quote EmptyString w)))
     = run cdb ("gh" :: protectionDelete answer)
  /\ nth 1 (protectionDelete answer) EmptyString
     = "/repos/:owner/:repo/branches/" ++ answer ++ "/protection".
Proof.
  intros cdb Hout Hne.
  set (w1 := asking (holding w cdb) [QStdout cdb]).
  assert (HI : Install engine Quote EmptyString w
               = Install engine Quote answer w1).
  { unfold Install at 1. cbn [String.eqb]. unfold bind at 1.
    rewrite DefaultBranch_run. fold cdb. fold w1. rewrite Hout.
    unfold Install. apply String.eqb_neq in Hne. now rewrite Hne. }
  assert (HU : Uninstall engine Quote EmptyString w
               = Uninstall engine Quote answer w1).
  { unfold Uninstall at 1. cbn [String.eqb]. unfold bind at 1.
    rewrite DefaultBranch_run. fold cdb. fold w1. rewrite Hout.
    unfold Uninstall. apply String.eqb_neq in Hne. now rewrite Hne. }
  rewrite HI, HU.
  destruct (Install_named engine Quote answer w1 Hne) as (H1 & _).
  destruct (Uninstall_named engine Quote answer w1 Hne) as (H2 & _).
  repeat split; assumption.
Qed.

(** [gh] answers [main] and a line feed: the line feed is in the path
    of the request. *)
Lemma protection_uses_raw_default_branch_witness :
  let engine := Fake.engine Fake.cleanRepo in
  Container (this (snd (Install engine Fake.quote EmptyString Fake.world0)))
  = run (ghDefaultBranch (Container Fake.signoff0))
        ("gh" :: protectionPut ("main" ++ Go.LF) "signoff")
  /\ nth 1 (protectionPut ("main" ++ Go.LF) "signoff") EmptyString
     = "/repos/:owner/:repo/branches/main" ++ Go.LF ++ "/protection".
Proof.
  intros engine.
  assert (Hne : "main" ++ Go.LF <> EmptyString) by discriminate.
  destruct (protection_uses_raw_default_branch engine Fake.quote Fake.world0
              ("main" ++ Go.LF) eq_refl Hne) as (H1 & H2 & _).
  split; [exact H1 | exact H2].
Defined.

End DefaultBranchFacts.
